(** * EOLO: the model-configuration generator of [src/create.py]

    A shallow embedding of the generator script: the resolved Hydra/OmegaConf
    configuration is a tree of Python values, exceptions are explicit results,
    and the file system and standard output are threaded as a state.

    Conventions of the embedding
    - The configuration is fully resolved (no interpolation, no mandatory
      missing value), and mappings have string keys.
    - A raised exception is recorded with the class a plain Python value
      raises; OmegaConf's own subclasses ([ConfigAttributeError],
      [ConfigKeyError]) are filed under their builtin parent.
    - Strings are UTF-8 byte strings; [strip] knows the ASCII white space.
    - The container handed to the serializer is a tree: no list or mapping
      object occurs in it twice ([OmegaConf.to_container] builds fresh ones),
      so PyYAML writes no anchor and no alias.
    - The file system is a store keyed by absolute paths as [pathlib] hands
      them over: empty and [.] components are dropped, [..] is kept as the
      component it is.  There are no symbolic or hard links; a path without
      [..] is then the only key of its entry, and what is said about entries
      other than the one written is said for such paths.
    - What the script takes from outside is a parameter: the iteration
      order of a Python [set], PyYAML's emitter, the text of floats and
      containers in an f-string, the project root and the clock. *)

From Stdlib Require Import ZArith Floats Ascii String.
From stdpp Require Import base strings list gmap pretty.

Set Warnings "-register-all".

(** ** Python values and exceptions *)

Module Py.

(** The values an OmegaConf container holds once resolved.  A [VDict] keeps
    its keys in insertion order, as Python dictionaries do. *)
Inductive PyVal : Type :=
| VNone
| VBool (b : bool)
| VInt (n : Z)
| VFloat (f : float)
| VStr (s : string)
| VList (l : list PyVal)
| VDict (d : list (string * PyVal)).

Inductive PyExc : Type :=
| TypeError
| IndexError
| KeyError
| AttributeError
| AssertionError
| OSError.

Inductive result (A : Type) : Type :=
| Ok (a : A)
| Raise (e : PyExc).
Arguments Ok {A} a.
Arguments Raise {A} e.

Definition rbind {A B} (r : result A) (k : A -> result B) : result B :=
  match r with
  | Ok a => k a
  | Raise e => Raise e
  end.

Notation "x <- r ;; k" := (rbind r (fun x => k))
  (at level 100, r at next level, right associativity, only parsing).

Fixpoint rmapM {A B} (f : A -> result B) (l : list A) : result (list B) :=
  match l with
  | [] => Ok []
  | a :: l' => b <- f a ;; bs <- rmapM f l' ;; Ok (b :: bs)
  end.

(** [bool(v)] *)
Definition truthy (v : PyVal) : bool :=
  match v with
  | VNone => false
  | VBool b => b
  | VInt n => negb (n =? 0)%Z
  | VFloat f => negb (PrimFloat.eqb f 0%float)
  | VStr s => negb (String.eqb s "")
  | VList l => negb (bool_decide (l = []))
  | VDict d => negb (bool_decide (d = []))
  end.

(** [v is not None] *)
Definition is_not_None (v : PyVal) : bool :=
  match v with
  | VNone => false
  | _ => true
  end.

(** [isinstance(v, int)]: [bool] is a subclass of [int]. *)
Definition as_int (v : PyVal) : option Z :=
  match v with
  | VInt n => Some n
  | VBool b => Some (if b then 1 else 0)%Z
  | _ => None
  end.

Definition isinstance_int (v : PyVal) : bool := bool_decide (is_Some (as_int v)).

Definition isinstance_float (v : PyVal) : bool :=
  match v with VFloat _ => true | _ => false end.

Definition isinstance_str (v : PyVal) : bool :=
  match v with VStr _ => true | _ => false end.

Definition isinstance_list (v : PyVal) : bool :=
  match v with VList _ => true | _ => false end.

(** [needle in s] on strings: [needle] occurs as a substring. *)
Fixpoint str_contains (needle s : string) : bool :=
  String.prefix needle s ||
  match s with
  | EmptyString => false
  | String _ s' => str_contains needle s'
  end.

Definition is_the_str (s : string) (v : PyVal) : bool :=
  match v with VStr t => String.eqb s t | _ => false end.

(** [needle in v] for a string [needle]: substring test on a string, element
    test on a list, key test on a mapping, [TypeError] on anything else. *)
Definition py_in (needle : string) (v : PyVal) : result bool :=
  match v with
  | VStr s => Ok (str_contains needle s)
  | VList l => Ok (existsb (is_the_str needle) l)
  | VDict d => Ok (existsb (fun kv => String.eqb needle kv.1) d)
  | _ => Raise TypeError
  end.

(** ** Mappings ([DictConfig]) *)

Fixpoint lookup_key (k : string) (d : list (string * PyVal)) : option PyVal :=
  match d with
  | [] => None
  | (k', v) :: d' => if String.eqb k k' then Some v else lookup_key k d'
  end.

(** [d.k]: a missing key raises. *)
Definition getattr (d : list (string * PyVal)) (k : string) : result PyVal :=
  match lookup_key k d with
  | Some v => Ok v
  | None => Raise AttributeError
  end.

(** [d.get(k)]: a missing key yields [None]. *)
Definition dict_get (d : list (string * PyVal)) (k : string) : PyVal :=
  default VNone (lookup_key k d).

(** [d.k = v] on an existing key: the entry keeps its position. *)
Fixpoint setattr (k : string) (v : PyVal) (d : list (string * PyVal))
  : list (string * PyVal) :=
  match d with
  | [] => []
  | (k', v') :: d' =>
      if String.eqb k k' then (k', v) :: d' else (k', v') :: setattr k v d'
  end.

(** [d.keys()] *)
Definition keys (d : list (string * PyVal)) : list string := d.*1.

End Py.

Import Py.

(** ** The layer-graph transformer: [process_model] *)

Record Cfg : Type := mkCfg {
  template : list (string * PyVal);
  user : PyVal;
  time : PyVal;
  run_name : PyVal
}.

Definition with_template (cfg : Cfg) (t : list (string * PyVal)) : Cfg :=
  {| template := t; user := user cfg; time := time cfg; run_name := run_name cfg |}.

(** Line 130-131, one element [v] of a list-valued [from]. *)
Definition shift_element (v : PyVal) : PyVal :=
  match v with
  | VInt n => if (10 <=? n)%Z then VInt (n + 1) else v
  | _ => v
  end.

(** Lines 125-131, the body of the loop for one [layer] of the head.
    [layer[0]] raises on an empty sequence and on a value that cannot be
    indexed; a one-character string indexes to itself and is left alone. *)
Definition shift_layer (layer : PyVal) : result PyVal :=
  match layer with
  | VList (arg0 :: rest) =>
      match arg0 with
      | VInt n => Ok (VList ((if (10 <=? n)%Z then VInt (n + 1) else arg0) :: rest))
      | VList vs => Ok (VList (VList (shift_element <$> vs) :: rest))
      | _ => Ok layer
      end
  | VList [] => Raise IndexError
  | VStr s => if String.eqb s "" then Raise IndexError else Ok layer
  | VDict _ => Raise KeyError
  | _ => Raise TypeError
  end.

(** [for layer in cfg.template.head]: a list yields its elements, a string its
    characters and a mapping its keys (neither of which the body changes). *)
Definition shift_head (head : PyVal) : result PyVal :=
  match head with
  | VList layers => ls <- rmapM shift_layer layers ;; Ok (VList ls)
  | VStr _ => Ok head
  | VDict d => if existsb (fun kv => String.eqb kv.1 "") d then Raise IndexError else Ok head
  | _ => Raise TypeError
  end.

(** [cfg.template.backbone.append(x)] *)
Definition backbone_append (backbone x : PyVal) : result PyVal :=
  match backbone with
  | VList bb => Ok (VList (bb ++ [x]))
  | VDict d => match lookup_key "append" d with
               | Some _ => Raise TypeError
               | None => Raise AttributeError
               end
  | _ => Raise AttributeError
  end.

Definition process_model (cfg : Cfg) : result Cfg :=
  attention <- getattr (template cfg) "ATTENTION" ;;
  if truthy attention then
    backbone <- getattr (template cfg) "backbone" ;;
    backbone' <- backbone_append backbone (VList [VInt (-1); VInt 1; attention; VList []]) ;;
    let t1 := setattr "backbone" backbone' (template cfg) in
    head <- getattr t1 "head" ;;
    head' <- shift_head head ;;
    Ok (with_template cfg (setattr "head" head' t1))
  else Ok cfg.

(** ** The serializer: [CustomYAMLDumper] and [format_yaml_content] *)

Module Yaml.

(** PyYAML's representation graph.  A collection node carries the
    [flow_style] the emitter obeys: [true] is the inline form [[a, b]],
    [false] the block form with one item per line. *)
Inductive Node : Type :=
| ScalarNode (v : PyVal)
| SequenceNode (items : list Node) (flow_style : bool)
| MappingNode (items : list (Node * Node)) (flow_style : bool).

Definition is_plain_scalar (n : Node) : bool :=
  match n with ScalarNode _ => true | _ => false end.

(** [BaseRepresenter.represent_sequence]: the style of the node is the
    [flow_style] argument when one is given, else the dumper's
    [default_flow_style], else inline exactly for a list of scalars. *)
Definition represent_sequence (default_flow_style : option bool)
    (items : list Node) (flow_style : option bool) : Node :=
  SequenceNode items
    (match flow_style with
     | Some b => b
     | None => default (forallb is_plain_scalar items) default_flow_style
     end).

(** Lines 26-41: the [flow_style] argument [represent_list] passes on. *)
Definition list_flow_style (data : list PyVal) : option bool :=
  match data with
  | [d0; d1; d2; d3] =>
      if (isinstance_int d0 || isinstance_list d0) && isinstance_int d1
         && isinstance_str d2 && isinstance_list d3
      then Some true else None
  | [_; _; _] =>
      if forallb (fun x => isinstance_int x || isinstance_float x) data
      then Some true else None
  | _ => None
  end.

(** [represent_data] with [represent_list] registered for lists; mappings
    and scalars go through [SafeRepresenter] unchanged. *)
Fixpoint represent_data (default_flow_style : option bool) (data : PyVal) : Node :=
  match data with
  | VList l =>
      represent_sequence default_flow_style
        (map (represent_data default_flow_style) l) (list_flow_style l)
  | VDict d =>
      let items :=
        map (fun kv => match kv with
                       | (k, v) => (ScalarNode (VStr k), represent_data default_flow_style v)
                       end) d in
      MappingNode items
        (default (forallb (fun kv => is_plain_scalar kv.2) items) default_flow_style)
  | _ => ScalarNode data
  end.

Definition represent_list (default_flow_style : option bool) (data : list PyVal) : Node :=
  represent_data default_flow_style (VList data).

Definition node_flow_style (n : Node) : option bool :=
  match n with
  | ScalarNode _ => None
  | SequenceNode _ b | MappingNode _ b => Some b
  end.

(** *** The form the emitter gives a collection

    [Emitter.expect_node] (PyYAML, [emitter.py]) tests
    [self.flow_level or self.canonical or self.event.flow_style or
    self.check_empty_sequence()], and likewise for a mapping: a collection
    is written in flow form -- inline, between brackets or braces -- when
    the emitter is already inside a flow collection, when the node's
    [flow_style] is set, or when the collection is empty; otherwise in block
    form, one item per line.  [yaml.dump] leaves [canonical] off. *)
Inductive Layout : Type :=
| Inline
| Block.

Definition expect_node (flow_level : nat) (flow_style empty : bool) : Layout :=
  if negb (flow_level =? 0)%nat || flow_style || empty then Inline else Block.

(** [expect_flow_sequence] and [expect_flow_mapping] raise [flow_level] for
    the items of the collection; the block forms leave it as it is. *)
Definition items_level (flow_level : nat) (layout : Layout) : nat :=
  match layout with
  | Inline => S flow_level
  | Block => flow_level
  end.

(** A document as the emitter lays it out: every collection with the form
    it is written in. *)
Inductive Doc : Type :=
| DScalar (v : PyVal)
| DSequence (layout : Layout) (items : list Doc)
| DMapping (layout : Layout) (items : list (Doc * Doc)).

Definition is_empty {A} (l : list A) : bool :=
  match l with [] => true | _ => false end.

(** The emitter run over the events of a node, started at [flow_level]. *)
Fixpoint emit_layout (flow_level : nat) (n : Node) : Doc :=
  match n with
  | ScalarNode v => DScalar v
  | SequenceNode items flow_style =>
      let layout := expect_node flow_level flow_style (is_empty items) in
      DSequence layout (map (emit_layout (items_level flow_level layout)) items)
  | MappingNode items flow_style =>
      let layout := expect_node flow_level flow_style (is_empty items) in
      DMapping layout
        (map (fun kv => match kv with
                        | (k, v) => (emit_layout (items_level flow_level layout) k,
                                     emit_layout (items_level flow_level layout) v)
                        end) items)
  end.




(** *** Line-oriented post-processing *)

Definition newline : string := String "010"%char "".

(** [s.split(sep)] for a one-character separator. *)
Fixpoint split_char (sep : ascii) (s : string) : list string :=
  match s with
  | EmptyString => [""]
  | String c s' =>
      if Ascii.eqb c sep then "" :: split_char sep s'
      else match split_char sep s' with
           | [] => [String c ""]
           | w :: ws => String c w :: ws
           end
  end.

(** The ASCII characters [str.strip] removes. *)
Definition is_space (c : ascii) : bool :=
  let n := nat_of_ascii c in
  ((9 <=? n) && (n <=? 13) || (28 <=? n) && (n <=? 32))%nat.

Fixpoint lstrip (s : string) : string :=
  match s with
  | String c s' => if is_space c then lstrip s' else s
  | EmptyString => s
  end.

Fixpoint rstrip (s : string) : string :=
  match s with
  | EmptyString => EmptyString
  | String c s' =>
      match rstrip s' with
      | EmptyString => if is_space c then EmptyString else String c EmptyString
      | r => String c r
      end
  end.

Definition strip (s : string) : string := rstrip (lstrip s).

Definition startswith (s p : string) : bool := String.prefix p s.

Record Flags : Type := mkFlags {
  in_backbone : bool;
  in_head : bool;
  in_scales : bool
}.

(** One turn of the loop of lines 75-113: the lines appended and the flags
    after it. *)
Definition format_line (fl : Flags) (line : string) : list string * Flags :=
  let stripped := strip line in
  if startswith stripped "scales:" then
    (["scales:"; "  # [depth, width, max_channels]"], mkFlags false false true)
  else if startswith stripped "backbone:" then
    ([""; "backbone:"; "  # [from, repeats, module, args]"], mkFlags true false false)
  else if startswith stripped "head:" then
    ([""; "head:"], mkFlags false true false)
  else
    let fl :=
      if negb (String.eqb stripped "") && negb (startswith line " ")
         && negb (startswith stripped "- [")
      then mkFlags false false false else fl in
    let line :=
      if in_scales fl && negb (String.eqb stripped "") && str_contains ":" line
         && negb (startswith line "  ")
      then "  " +:+ strip line else line in
    let line :=
      if (in_backbone fl || in_head fl) && startswith (strip line) "- ["
      then "  " +:+ strip line else line in
    ([line], fl).

Fixpoint format_lines (fl : Flags) (lines : list string) : list string :=
  match lines with
  | [] => []
  | line :: rest =>
      let '(out, fl') := format_line fl line in
      out ++ format_lines fl' rest
  end.

Section Dump.

(** PyYAML's serializer and emitter, called with [allow_unicode=True],
    [indent=2], [width=120]: the text of a representation graph.  Which
    collections it writes inline is [emit_layout]; the characters and the
    line breaks are taken as they come. *)
Variable emit : Node -> string.

(** [yaml.dump(data, Dumper=CustomYAMLDumper, default_flow_style=False, ...,
    sort_keys=False)] *)
Definition yaml_dump (data : PyVal) : string :=
  emit (represent_data (Some false) data).

Definition format_yaml_content (data : PyVal) : string :=
  String.concat newline
    (format_lines (mkFlags false false false) (split_char "010" (yaml_dump data))).

End Dump.

End Yaml.

(** ** Paths and the file system *)

Module Os.

(** A path is absolute and kept as the list of its components below the
    root directory, as [pathlib] parses it on POSIX: [..] stays a component.
    [parts] are the components one operand of [/] contributes. *)
Definition parts (segment : string) : list string :=
  filter (fun s => s <> "" /\ s <> ".") (Yaml.split_char "/" segment).

(** [pathlib]'s [p / segment]: an absolute segment replaces [p]; empty and
    [.] components are dropped. *)
Definition div (p : list string) (segment : string) : list string :=
  if String.prefix "/" segment then parts segment else p ++ parts segment.

(** [str(p)] *)
Definition path_str (p : list string) : string :=
  "/" +:+ String.concat "/" p.

Inductive Inode : Type :=
| Dir
| File (content : string).

(** [os.path.exists(p)] *)
Definition path_exists (fs : gmap (list string) Inode) (p : list string) : bool :=
  bool_decide (p = [] \/ is_Some (fs !! p)).

(** Creates the missing directories on the way from [made] down to
    [made ++ todo]; a regular file on the way is an error. *)
Fixpoint mkdir_chain (made todo : list string) (fs : gmap (list string) Inode)
  : result (gmap (list string) Inode) :=
  match todo with
  | [] => Ok fs
  | seg :: todo' =>
      let p := made ++ [seg] in
      match fs !! p with
      | Some (File _) => Raise OSError
      | Some Dir => mkdir_chain p todo' fs
      | None => mkdir_chain p todo' (<[p := Dir]> fs)
      end
  end.

(** [os.makedirs(p)], without [exist_ok]. *)
Definition makedirs (fs : gmap (list string) Inode) (p : list string)
  : result (gmap (list string) Inode) :=
  if path_exists fs p then Raise OSError else mkdir_chain [] p fs.

Definition is_dir (fs : gmap (list string) Inode) (p : list string) : bool :=
  match p with
  | [] => true
  | _ => match fs !! p with Some Dir => true | _ => false end
  end.

(** [with open(p, 'w') as f: f.write(...)]: the parent must be a directory
    and [p] itself must not be one; whatever file was at [p] is replaced.
    The store is keyed by the path as written: a second path to the same
    file (through [..], or a link) is another key, which this does not
    follow. *)
Definition write_file (fs : gmap (list string) Inode) (p : list string)
    (content : string) : result (gmap (list string) Inode) :=
  if is_dir fs (removelast p) && negb (is_dir fs p)
  then Ok (<[p := File content]> fs)
  else Raise OSError.

End Os.

(** ** The script: [main] *)

Record World : Type := mkWorld {
  fs : gmap (list string) Os.Inode;
  stdout : list string
}.

(** Computations of the script: they may print, touch the file system and
    raise; what was printed and written before an exception stays. *)
Definition M (A : Type) : Type := World -> result A * World.

Definition mret {A} (a : A) : M A := fun w => (Ok a, w).

Definition mbind {A B} (m : M A) (k : A -> M B) : M B :=
  fun w => match m w with
           | (Ok a, w') => k a w'
           | (Raise e, w') => (Raise e, w')
           end.

Notation "x <~ m ;; k" := (mbind m (fun x => k))
  (at level 100, m at next level, right associativity, only parsing).

Definition lift {A} (r : result A) : M A := fun w => (r, w).

Definition print (line : string) : M unit :=
  fun w => (Ok tt, {| fs := fs w; stdout := stdout w ++ [line] |}).

Definition with_fs (f : gmap (list string) Os.Inode -> result (gmap (list string) Os.Inode))
  : M unit :=
  fun w => match f (fs w) with
           | Ok fs' => (Ok tt, {| fs := fs'; stdout := stdout w |})
           | Raise e => (Raise e, w)
           end.

(** [a + b] where the left operand is a string.  A list read from the
    configuration is a [ListConfig], whose [__radd__] takes the sum over
    after [str.__add__] has declined it: it extends a new [ListConfig] by
    [a], and [ListConfig.extend] asserts that its argument is a list or a
    tuple. *)
Definition str_add (a : string) (b : PyVal) : result string :=
  match b with
  | VStr s => Ok (a +:+ s)
  | VList _ => Raise AssertionError
  | _ => Raise TypeError
  end.

(** [a + b] for [a] read from the configuration and a string [b]; for a
    list [a] the sum is [ListConfig.__add__], which fails in the same way. *)
Definition add_str (a : PyVal) (b : string) : result string :=
  match a with
  | VStr s => Ok (s +:+ b)
  | VList _ => Raise AssertionError
  | _ => Raise TypeError
  end.

Definition expect_str (v : PyVal) : result string :=
  match v with
  | VStr s => Ok s
  | _ => Raise TypeError
  end.

(** [sep.join(items)]: every item must be a string. *)
Definition str_join (sep : string) (items : list PyVal) : result string :=
  ss <- rmapM expect_str items ;; Ok (String.concat sep ss).

(** [p / v] for [v] read from the configuration. *)
Definition path_div (p : list string) (v : PyVal) : result (list string) :=
  s <- expect_str v ;; Ok (Os.div p s).

Definition reserved_keys : list string := ["name"; "nc"; "scales"; "backbone"; "head"].

Definition head_marker : string := "4Head".
Definition attention_marker : string := "attn".
Definition default_run_name : string := "create".

Definition msg_head_mismatch : string :=
  "   ⚠️ 模版检测头与选择的检测头不一致，略过。".
Definition msg_attention_mismatch : string :=
  "   ⚠️ 模版与选择的Attention不一致，略过。".

(** Lines 142 and 186: what is printed on the way. *)
Definition name_line (mname : string) : string := "   📝 Model name: " +:+ mname.

Definition created_line (p : list string) : string :=
  "   ✅ 模型创建成功: " +:+ Os.path_str p.

Section Generator.

(** The order in which Python iterates over a [set] of strings: some
    arrangement of its elements, fixed by the interpreter's string hashing. *)
Variable set_iter : list string -> list string.

(** [str(v)] for the values whose text is not modelled here (floats,
    lists, mappings). *)
Variable repr_other : PyVal -> string.

(** PyYAML's emitter, see [Yaml.yaml_dump]. *)
Variable emit : Yaml.Node -> string.

(** The project root found by [rootutils.setup_root]. *)
Variable ROOT : list string.

(** [f"{v}"] *)
Definition py_format (v : PyVal) : string :=
  match v with
  | VStr s => s
  | VNone => "None"
  | VBool true => "True"
  | VBool false => "False"
  | VInt n => pretty n
  | _ => repr_other v
  end.

(** Line 140: [set(cfg.template.keys()) - set([...])], in iteration order. *)
Definition used_keys (t : list (string * PyVal)) : list string :=
  set_iter (remove_dups (filter (fun k => k ∉ reserved_keys) (keys t))).

(** Line 141 *)
Definition model_name (t : list (string * PyVal)) : result string :=
  name <- getattr t "name" ;;
  stem <- add_str name "-" ;;
  joined <- str_join "-" (filter (fun v => truthy v = true) (dict_get t <$> used_keys t)) ;;
  Ok (stem +:+ joined).

(** Line 144: [("4Head" in cfg.template.name) ^ ("4Head" in cfg.template.HEAD)] *)
Definition head_mismatch (t : list (string * PyVal)) : result bool :=
  name <- getattr t "name" ;;
  a <- py_in head_marker name ;;
  HEAD <- getattr t "HEAD" ;;
  b <- py_in head_marker HEAD ;;
  Ok (xorb a b).

(** Line 147: [("attn" in cfg.template.name) ^ (cfg.template.ATTENTION is not None)] *)
Definition attention_mismatch (t : list (string * PyVal)) : result bool :=
  name <- getattr t "name" ;;
  a <- py_in attention_marker name ;;
  ATTENTION <- getattr t "ATTENTION" ;;
  Ok (xorb a (is_not_None ATTENTION)).

(** Lines 155-156 *)
Definition user_generate_dir (cfg : Cfg) : result (list string) :=
  d <- path_div (Os.div (Os.div ROOT "configs") "model") (user cfg) ;;
  let d := Os.div d "generate" in
  suffix <- (if is_the_str default_run_name (run_name cfg) then Ok ""
             else str_add "-" (run_name cfg)) ;;
  Ok (Os.div d (py_format (time cfg) +:+ suffix)).

(** Lines 165-176; [t] is the template after line 151. *)
Definition header_comment (cfg : Cfg) (t : list (string * PyVal)) (now mname : string)
  : result string :=
  name <- getattr t "name" ;;
  DOWNSAMPLE <- getattr t "DOWNSAMPLE" ;;
  CONVOLUTION <- getattr t "CONVOLUTION" ;;
  FUSION <- getattr t "FUSION" ;;
  HEAD <- getattr t "HEAD" ;;
  Ok (String.concat Yaml.newline
        [ "# 自动生成的模型配置文件";
          "# 生成时间: " +:+ now;
          "# 用户: " +:+ py_format (user cfg);
          "# 模板: " +:+ py_format name;
          "# 模型名称: " +:+ mname;
          "# ";
          "# 配置参数:";
          "#   - 下采样模块: " +:+ py_format DOWNSAMPLE;
          "#   - 卷积模块: " +:+ py_format CONVOLUTION +:+ "  ";
          "#   - 融合模块: " +:+ py_format FUSION;
          "#   - 检测头: " +:+ py_format HEAD;
          "" ]).

(** [OmegaConf.to_container(omf, resolve=True)] on a resolved mapping. *)
Definition oc_to_dict (omf : list (string * PyVal)) : PyVal := VDict omf.

(** Lines 151-186: what [main] does once both checks have passed.  The call
    of [process_model] on line 153 is commented out in the source, so the
    template reaches the serializer with only its [name] replaced. *)
Definition generate (cfg : Cfg) (now mname : string) : M unit :=
  let t := setattr "name" (VStr mname) (template cfg) in
  USER_GENERATE_DIR <~ lift (user_generate_dir cfg) ;;
  _ <~ (fun w => if Os.path_exists (fs w) USER_GENERATE_DIR then (Ok tt, w)
                 else with_fs (fun f => Os.makedirs f USER_GENERATE_DIR) w) ;;
  let yaml_path := Os.div USER_GENERATE_DIR (mname +:+ ".yaml") in
  let model := oc_to_dict t in
  header <~ lift (header_comment cfg t now mname) ;;
  let formatted_yaml := Yaml.format_yaml_content emit model in
  _ <~ with_fs (fun f => Os.write_file f yaml_path (header +:+ formatted_yaml)) ;;
  print (created_line yaml_path).

(** Lines 147-186: the attention check and what follows it. *)
Definition after_head_check (cfg : Cfg) (now mname : string) : M unit :=
  mismatch <~ lift (attention_mismatch (template cfg)) ;;
  if mismatch then print msg_attention_mismatch
  else generate cfg now mname.

Definition main (cfg : Cfg) (now : string) : M unit :=
  mname <~ lift (model_name (template cfg)) ;;
  _ <~ print (name_line mname) ;;
  mismatch <~ lift (head_mismatch (template cfg)) ;;
  if mismatch then print msg_head_mismatch
  else after_head_check cfg now mname.

End Generator.

(** ** Vocabulary of the specification *)

(** A [from] reference of a layer: one index or a list of indices. *)
Inductive FromRef : Type :=
| Single (n : Z)
| Multi (ns : list Z).

Definition from_val (f : FromRef) : PyVal :=
  match f with
  | Single n => VInt n
  | Multi ns => VList (VInt <$> ns)
  end.

(** The LayerSpec tuple [[from, repeats, module, args]]. *)
Definition layer_spec (f : FromRef) (repeats : Z) (module : string) (args : list PyVal)
  : PyVal :=
  VList [from_val f; VInt repeats; VStr module; VList args].

Definition is_layer_spec (v : PyVal) : Prop :=
  exists f repeats module args, v = layer_spec f repeats module args.

(** The rewrite rule of an absolute index: 10 and above moves up by one,
    anything below 10 -- negative offsets included -- stays. *)
Definition index_shifted (n n' : Z) : Prop :=
  ((10 <= n)%Z -> n' = (n + 1)%Z) /\ ((n < 10)%Z -> n' = n).

Definition ref_shifted (f f' : FromRef) : Prop :=
  match f, f' with
  | Single n, Single n' => index_shifted n n'
  | Multi ns, Multi ns' => Forall2 index_shifted ns ns'
  | _, _ => False
  end.

Definition shift_index (n : Z) : Z := if (10 <=? n)%Z then (n + 1)%Z else n.

Definition shift_ref (f : FromRef) : FromRef :=
  match f with
  | Single n => Single (shift_index n)
  | Multi ns => Multi (shift_index <$> ns)
  end.

(** A layer and its rewritten form. *)
Definition layer_shifted (l l' : PyVal) : Prop :=
  exists f r m a, l = layer_spec f r m a /\ l' = layer_spec (shift_ref f) r m a.

(** The layer [process_model] appends for the attention module [m]. *)
Definition attention_layer (m : PyVal) : PyVal :=
  VList [VInt (-1); VInt 1; m; VList []].

(** The [head] of a configuration after [process_model]. *)
Definition head_after (cfg : Cfg) : result PyVal :=
  cfg' <- process_model cfg ;; getattr (template cfg') "head".

Definition backbone_after (cfg : Cfg) : result PyVal :=
  cfg' <- process_model cfg ;; getattr (template cfg') "backbone".

(** An attention module "was actually selected": the [ATTENTION] option
    field is present and non-empty. *)
Definition attention_selected (t : list (string * PyVal)) : bool :=
  match lookup_key "ATTENTION" t with
  | Some v => truthy v
  | None => false
  end.



(** Every option field that contributes a segment holds a string. *)
Definition options_are_strings (t : list (string * PyVal)) : Prop :=
  forall k, k ∈ keys t -> k ∉ reserved_keys -> truthy (dict_get t k) = true ->
    exists s, dict_get t k = VStr s.

(** [int] in the sense of [isinstance]. *)
Definition is_int (v : PyVal) : Prop := (exists n, v = VInt n) \/ (exists b, v = VBool b).
Definition is_number (v : PyVal) : Prop := is_int v \/ (exists f, v = VFloat f).
Definition is_list (v : PyVal) : Prop := exists l, v = VList l.
Definition is_str (v : PyVal) : Prop := exists s, v = VStr s.



(** [data] as the serialized document holds it, where the emitter meets it
    at [flow_level]: 0 at the root of the document and wherever only block
    collections enclose it, more inside an inline collection. *)
Definition rendered (flow_level : nat) (data : PyVal) : Yaml.Doc :=
  Yaml.emit_layout flow_level (Yaml.represent_data (Some false) data).

(** A path component [pathlib] takes as it is: not empty, without [/], and
    not [.].  The parent step [..] is one, [pathlib] does not resolve it. *)
Definition plain_component (s : string) : Prop :=
  String.prefix "/" s = false /\ Os.parts s = [s].

(** No regular file sits at [d] or above it. *)
Definition no_file_on (fs : gmap (list string) Os.Inode) (d : list string) : Prop :=
  forall k content, fs !! take k d <> Some (Os.File content).

(** The directory segment [<timestamp>[-<run_name>]]. *)
Definition run_segment (timestamp run : string) : string :=
  timestamp +:+ (if decide (run = default_run_name) then "" else "-" +:+ run).

(** [<root>/configs/model/<user>/generate/<timestamp>[-<run_name>]] *)
Definition generate_dir_of (root : list string) (user timestamp run : string)
  : list string :=
  root ++ ["configs"; "model"; user; "generate"; run_segment timestamp run].

(** A request is accepted under the name [mname]: the name was composed and
    neither consistency check found a mismatch. *)
Definition accepted (set_iter : list string -> list string) (cfg : Cfg) (mname : string)
  : Prop :=
  model_name set_iter (template cfg) = Ok mname /\
  head_mismatch (template cfg) = Ok false /\
  attention_mismatch (template cfg) = Ok false.

(** The option fields the file header prints are there. *)
Definition header_fields_present (t : list (string * PyVal)) : Prop :=
  is_Some (lookup_key "DOWNSAMPLE" t) /\
  is_Some (lookup_key "CONVOLUTION" t) /\
  is_Some (lookup_key "FUSION" t).

(** ** Concrete runs

    A ten-layer backbone, one [Detect] layer in the head, and the option
    fields the header of the generated file reads. *)

Module Scenario.

Definition conv (repeats : Z) (module : string) (channels : Z) : PyVal :=
  VList [VInt (-1); VInt repeats; VStr module; VList [VInt channels; VInt 3; VInt 2]].

Definition backbone : list PyVal :=
  [ conv 1 "Conv" 64; conv 1 "Conv" 128; conv 2 "C3k2" 256; conv 1 "Conv" 256;
    conv 2 "C3k2" 512; conv 1 "Conv" 512; conv 2 "C3k2" 512; conv 1 "Conv" 1024;
    conv 2 "C3k2" 1024; VList [VInt (-1); VInt 1; VStr "SPPF"; VList [VInt 1024; VInt 5]] ].

Definition detect (from : PyVal) : PyVal :=
  VList [from; VInt 1; VStr "Detect"; VList [VInt 256]].

Definition scales : PyVal :=
  VDict [("n", VList [VFloat 0.5; VFloat 0.25; VInt 1024])].

Definition template_of (name : string) (head : list PyVal) (HEAD ATTENTION : PyVal)
  : list (string * PyVal) :=
  [ ("name", VStr name); ("nc", VInt 80); ("scales", scales);
    ("backbone", VList backbone); ("head", VList head);
    ("DOWNSAMPLE", VStr "ADown"); ("CONVOLUTION", VNone); ("FUSION", VStr "");
    ("HEAD", HEAD); ("ATTENTION", ATTENTION) ].

Definition cfg_of (t : list (string * PyVal)) (run : string) : Cfg :=
  {| template := t; user := VStr "test"; time := VStr "t1754318068366";
     run_name := VStr run |}.

(** Backbone of length 10, head entry [[12, 1, "Detect", [256]]],
    [ATTENTION = "EIEStem"]. *)
Definition with_attention : Cfg :=
  cfg_of (template_of "yolo11-attn" [detect (VInt 12)] (VStr "Detect") (VStr "EIEStem"))
         "create".

(** The same with the list-form [from = [-1, 8]]. *)
Definition with_list_from : Cfg :=
  cfg_of (template_of "yolo11-attn" [detect (VList [VInt (-1); VInt 8])]
            (VStr "Detect") (VStr "EIEStem"))
         "create".

(** A head with single and list-form references on both sides of 10. *)
Definition mixed_layers : list PyVal :=
  [ layer_spec (Multi [-1; 6]%Z) 1 "Concat" [VInt 1];
    layer_spec (Single (-1)) 2 "C3k2" [VInt 512; VBool false];
    layer_spec (Multi [-1; 13]%Z) 1 "Concat" [VInt 1];
    layer_spec (Single 4) 1 "Conv" [VInt 256; VInt 3; VInt 2];
    layer_spec (Multi [16; 19; 22]%Z) 1 "Detect" [VInt 80];
    layer_spec (Single 12) 1 "Detect" [VInt 256] ].

Definition mixed_head : Cfg :=
  cfg_of (template_of "yolo11-attn" mixed_layers (VStr "Detect") (VStr "EIEStem"))
         "create".

(** A multi-head template name with a single-head [HEAD]. *)
Definition head_disagrees : Cfg :=
  cfg_of (template_of "yolo11-4Head" [detect (VInt 12)] (VStr "AFPNHead") VNone) "create".

(** No attention marker in the name, and [ATTENTION] set to the empty
    string. *)
Definition empty_attention : Cfg :=
  cfg_of (template_of "yolo11" [detect (VInt 12)] (VStr "Detect") (VStr "")) "create".

(** The attention marker in the name, and [ATTENTION] set to the empty
    string. *)
Definition empty_attention_advertised : Cfg :=
  cfg_of (template_of "yolo11-attn" [detect (VInt 12)] (VStr "Detect") (VStr "")) "create".

(** A name with the attention marker and no attention module. *)
Definition attention_missing : Cfg :=
  cfg_of (template_of "yolo11-attn" [detect (VInt 12)] (VStr "Detect") VNone) "create".

(** A multi-head template name with [HEAD] an empty list. *)
Definition empty_list_head : Cfg :=
  cfg_of (template_of "yolo11-4Head" [detect (VInt 12)] (VList []) VNone) "create".

(** [HEAD: null] *)
Definition none_head : Cfg :=
  cfg_of (template_of "yolo11-4Head" [detect (VInt 12)] VNone VNone) "create".

(** Every option field empty. *)
Definition no_options : list (string * PyVal) :=
  [ ("name", VStr "yolo11"); ("nc", VInt 80); ("scales", scales);
    ("backbone", VList backbone); ("head", VList [detect (VInt 12)]);
    ("DOWNSAMPLE", VStr ""); ("CONVOLUTION", VNone); ("HEAD", VStr ""); ("ATTENTION", VNone) ].

(** A run under a name other than the default. *)
Definition named_run : Cfg :=
  cfg_of (template_of "yolo11-attn" [detect (VInt 12)] (VStr "Detect") (VStr "EIEStem"))
         "sweep".


Definition ROOT : list string := ["home"; "user"; "EOLO"].

Definition now : string := "2025-08-04 22:34:28".

(** A stand-in for the emitter and for the text of unmodelled values: the
    emitter writes the number of nodes of the graph. *)
Fixpoint node_count (n : Yaml.Node) : nat :=
  match n with
  | Yaml.ScalarNode _ => 1
  | Yaml.SequenceNode items _ => S (list_sum (map node_count items))
  | Yaml.MappingNode items _ =>
      S (list_sum (map (fun kv => match kv with
                                  | (k, v) => node_count k + node_count v
                                  end) items))
  end.

Definition emit (n : Yaml.Node) : string := "nodes: " +:+ pretty (node_count n).

Definition repr_other (v : PyVal) : string := "...".

(** Two iteration orders a set of strings may have. *)
Definition declared_order (l : list string) : list string := l.
Definition reversed_order (l : list string) : list string := rev l.

Definition world0 : World := {| fs := ∅; stdout := [] |}.

(** The name [main] composes for [with_attention] in declared order, and
    the template the specification expects in the written document. *)
Definition final_name : string := "yolo11-attn-ADown-Detect-EIEStem".

Definition processed_template : list (string * PyVal) :=
  [ ("name", VStr final_name); ("nc", VInt 80); ("scales", scales);
    ("backbone", VList (backbone ++ [VList [VInt (-1); VInt 1; VStr "EIEStem"; VList []]]));
    ("head", VList [detect (VInt 13)]);
    ("DOWNSAMPLE", VStr "ADown"); ("CONVOLUTION", VNone); ("FUSION", VStr "");
    ("HEAD", VStr "Detect"); ("ATTENTION", VStr "EIEStem") ].

(** A world in which the target of [with_attention] already exists. *)
Definition generate_dir : list string :=
  ROOT ++ ["configs"; "model"; "test"; "generate"; "t1754318068366"].

Definition target : list string :=
  generate_dir ++ [final_name +:+ ".yaml"].

Definition world_with_target : World :=
  {| fs := <[target := Os.File "stale"]>
             (<[generate_dir := Os.Dir]> ∅);
     stdout := [] |}.

End Scenario.

(** ** Vocabulary of the further properties *)

(** A layer [process_model] can index: a non-empty list. *)
Definition indexable (layer : PyVal) : Prop :=
  exists arg0 rest, layer = VList (arg0 :: rest).

(** Two layers that differ at most in their first element. *)
Definition same_tail (l l' : PyVal) : Prop :=
  exists a a' rest, l = VList (a :: rest) /\ l' = VList (a' :: rest).

(** An index of 10 or more moved up by [k]; one below 10 left alone. *)
Definition index_moved (k n n' : Z) : Prop :=
  ((10 <= n)%Z -> n' = (n + k)%Z) /\ ((n < 10)%Z -> n' = n).

Definition ref_moved (k : Z) (f f' : FromRef) : Prop :=
  match f, f' with
  | Single n, Single n' => index_moved k n n'
  | Multi ns, Multi ns' => Forall2 (index_moved k) ns ns'
  | _, _ => False
  end.

Definition layer_moved (k : Z) (l l' : PyVal) : Prop :=
  exists f f' r m a,
    l = layer_spec f r m a /\ l' = layer_spec f' r m a /\ ref_moved k f f'.

(** The position an absolute reference [i] is rewritten to. *)
Definition shifted_position (i : nat) : nat := Z.to_nat (shift_index (Z.of_nat i)).

Module Cases.

(** A head whose second layer is an empty list. *)
Definition empty_layer : Cfg :=
  Scenario.cfg_of
    (Scenario.template_of "yolo11-attn"
       [Scenario.detect (VInt 12); VList []; Scenario.detect (VInt 15)]
       (VStr "Detect") (VStr "EIEStem"))
    "create".

(** Layers that are lists but not LayerSpec tuples. *)
Definition loose_layers : list PyVal :=
  [ VList [VInt 12]; VList [VStr "x"; VInt 1]; VList [VFloat 12; VInt 1; VStr "Conv"; VList []];
    VList [VList [VInt 11; VStr "y"; VBool true]; VInt 1; VStr "Concat"; VList [VInt 1]] ].

Definition loose : Cfg :=
  Scenario.cfg_of (Scenario.template_of "yolo11-attn" loose_layers (VStr "Detect") (VStr "EIEStem"))
    "create".

End Cases.

(** [f'] has every entry of [f] and, beyond them, only directories. *)
Definition only_dirs_added (f f' : gmap (list string) Os.Inode) : Prop :=
  (forall q x, f !! q = Some x -> f' !! q = Some x) /\
  (forall q x, f' !! q = Some x -> f !! q = Some x \/ x = Os.Dir).

(** The paths [main] hands to the operating system: the output directory
    of lines 155-156 and the file of line 160 in it; none when the name or
    the directory cannot be computed. *)
Definition paths_used (set_iter : list string -> list string)
    (repr_other : PyVal -> string) (ROOT : list string) (cfg : Cfg)
  : list (list string) :=
  match model_name set_iter (template cfg), user_generate_dir repr_other ROOT cfg with
  | Ok mname, Ok d => [d; Os.div d (mname +:+ ".yaml")]
  | _, _ => []
  end.

(** No component of [p] is the parent step [..]: on a file system without
    links [p] is then the only path of its entry. *)
Definition no_parent_step (p : list string) : Prop := ".." ∉ p.

(** The ways a call of [main] can end, seen from the world [w] it started
    in: the result and the world it leaves. *)
Inductive main_outcome (w : World) : result unit * World -> Prop :=
| NameFailed e :
    main_outcome w (Raise e, w)
| Failed e mname w' :
    stdout w' = stdout w ++ [name_line mname] ->
    only_dirs_added (fs w) (fs w') ->
    main_outcome w (Raise e, w')
| RejectedHead mname :
    main_outcome w
      (Ok tt, {| fs := fs w; stdout := stdout w ++ [name_line mname; msg_head_mismatch] |})
| RejectedAttention mname :
    main_outcome w
      (Ok tt, {| fs := fs w;
                 stdout := stdout w ++ [name_line mname; msg_attention_mismatch] |})
| Written mname p content fs1 :
    only_dirs_added (fs w) fs1 ->
    fs1 !! p <> Some Os.Dir ->
    main_outcome w
      (Ok tt, {| fs := <[p := Os.File content]> fs1;
                 stdout := stdout w ++ [name_line mname; created_line p] |}).

Module MainCases.


(** [run_name: null] *)
Definition null_run_name : Cfg :=
  {| template := template Scenario.with_attention; user := VStr "test";
     time := VStr "t1754318068366"; run_name := VNone |}.

(** An option field holding a number. *)
Definition numeric_option : Cfg :=
  Scenario.cfg_of
    [ ("name", VStr "yolo11-attn"); ("nc", VInt 80); ("scales", Scenario.scales);
      ("backbone", VList Scenario.backbone); ("head", VList [Scenario.detect (VInt 12)]);
      ("DOWNSAMPLE", VStr "ADown"); ("WIDTH", VInt 2);
      ("HEAD", VStr "Detect"); ("ATTENTION", VStr "EIEStem") ]
    "create".

(** A user given as an absolute path. *)
Definition absolute_user : Cfg :=
  {| template := template Scenario.with_attention; user := VStr "/tmp/elsewhere";
     time := VStr "t1754318068366"; run_name := VStr "create" |}.


End MainCases.

(** [null] or a number, [True] and [False] included. *)
Definition is_null_or_number (v : PyVal) : Prop := v = VNone \/ is_number v.

(** A line that opens one of the three sections [format_yaml_content]
    knows. *)
Definition is_header (line : string) : bool :=
  Yaml.startswith (Yaml.strip line) "scales:" ||
  Yaml.startswith (Yaml.strip line) "backbone:" ||
  Yaml.startswith (Yaml.strip line) "head:".

(** What [format_yaml_content] makes of one line, indentation aside: the
    fixed lines of a section header, or the line itself. *)
Definition restyled (line : string) : list string :=
  if Yaml.startswith (Yaml.strip line) "scales:" then
    ["scales:"; "# [depth, width, max_channels]"]
  else if Yaml.startswith (Yaml.strip line) "backbone:" then
    [""; "backbone:"; "# [from, repeats, module, args]"]
  else if Yaml.startswith (Yaml.strip line) "head:" then
    [""; "head:"]
  else [Yaml.strip line].

(** An entry line of a section: [- [...]] *)
Definition is_entry (line : string) : Prop :=
  Yaml.startswith (Yaml.strip line) "- [" = true.

Definition indented (line : string) : string := "  " +:+ Yaml.strip line.

Module Dumps.

(** The text PyYAML emits for a small template, and its formatted form. *)
Definition emitted : list string :=
  [ "name: yolo11-attn-ADown";
    "nc: 80";
    "scales:";
    "  n: [0.5, 0.25, 1024]";
    "backbone:";
    "- [-1, 1, Conv, [64, 3, 2]]";
    "- [-1, 1, Conv, [128, 3, 2]]";
    "head:";
    "- [[-1, 6], 1, Concat, [1]]";
    "- [12, 1, Detect, [256]]";
    "DOWNSAMPLE: ADown";
    "" ].

Definition formatted : list string :=
  [ "name: yolo11-attn-ADown";
    "nc: 80";
    "scales:";
    "  # [depth, width, max_channels]";
    "  n: [0.5, 0.25, 1024]";
    "";
    "backbone:";
    "  # [from, repeats, module, args]";
    "  - [-1, 1, Conv, [64, 3, 2]]";
    "  - [-1, 1, Conv, [128, 3, 2]]";
    "";
    "head:";
    "  - [[-1, 6], 1, Concat, [1]]";
    "  - [12, 1, Detect, [256]]";
    "DOWNSAMPLE: ADown";
    "" ].

(** An emitter that writes a document without any of the three sections. *)
Definition emit_plain (n : Yaml.Node) : string :=
  String.concat Yaml.newline ["nc: 80"; "names:"; "- person"; "- car"; ""].

(** Entry lines as an emitter may indent them. *)
Definition entries : list string :=
  [ "- [-1, 1, Conv, [64, 3, 2]]"; "    - [-1, 1, Conv, [128, 3, 2]]  ";
    "  - [[-1, 6], 1, Concat, [1]]" ].

End Dumps.

Module Layers.

(** A head of exactly four layers, and a backbone of exactly three. *)
Definition four : list PyVal :=
  [ layer_spec (Multi [-1; 6]%Z) 1 "Concat" [VInt 1];
    layer_spec (Single (-1)) 2 "C3k2" [VInt 512; VBool false];
    layer_spec (Single 4) 1 "Conv" [VInt 256; VInt 3; VInt 2];
    layer_spec (Multi [16; 19; 22]%Z) 1 "Detect" [VInt 80] ].

Definition three : list PyVal :=
  [ layer_spec (Single (-1)) 1 "Conv" [VInt 64; VInt 3; VInt 2];
    layer_spec (Single (-1)) 1 "Conv" [VInt 128; VInt 3; VInt 2];
    layer_spec (Single (-1)) 2 "C3k2" [VInt 256; VBool false; VFloat 0.25] ].

End Layers.

(** The header [main] writes for the scenario. *)
Definition scenario_header : string :=
  Eval vm_compute in
    match header_comment Scenario.repr_other Scenario.with_attention
            (setattr "name" (VStr Scenario.final_name) (template Scenario.with_attention))
            Scenario.now Scenario.final_name with
    | Ok h => h
    | Raise _ => ""
    end.

Module Lengths.

(** The scenario with an eleventh backbone layer, as in the stock
    [yolo11] template, and a head that taps it. *)
Definition backbone11 : list PyVal :=
  Scenario.backbone ++ [VList [VInt (-1); VInt 2; VStr "C2PSA"; VList [VInt 1024]]].

Definition head11 : list PyVal :=
  [ layer_spec (Multi [-1; 10]%Z) 1 "Concat" [VInt 1];
    layer_spec (Single 11) 1 "Detect" [VInt 256] ].

Definition eleven : Cfg :=
  Scenario.cfg_of
    [ ("name", VStr "yolo11-attn"); ("nc", VInt 80); ("scales", Scenario.scales);
      ("backbone", VList backbone11); ("head", VList head11);
      ("DOWNSAMPLE", VStr "ADown"); ("CONVOLUTION", VNone); ("FUSION", VStr "");
      ("HEAD", VStr "Detect"); ("ATTENTION", VStr "EIEStem") ]
    "create".

End Lengths.

(** * Properties *)

(** ** Mappings *)

Lemma getattr_Ok d k v : getattr d k = Ok v <-> lookup_key k d = Some v.
Proof.
  unfold getattr. destruct (lookup_key k d); split; intros H; congruence.
Qed.

Lemma lookup_key_setattr_eq k v d :
  is_Some (lookup_key k d) -> lookup_key k (setattr k v d) = Some v.
Proof.
  induction d as [|[k' v'] d IH]; simpl; intros [x Hx]; [discriminate|].
  destruct (String.eqb_spec k k') as [->|Hne]; simpl.
  - by rewrite String.eqb_refl.
  - apply String.eqb_neq in Hne. rewrite Hne. apply IH. eauto.
Qed.

Lemma lookup_key_setattr_ne k k' v d :
  k <> k' -> lookup_key k' (setattr k v d) = lookup_key k' d.
Proof.
  intros Hne. induction d as [|[k0 v0] d IH]; simpl; [done|].
  destruct (String.eqb_spec k k0) as [->|Hk]; simpl.
  - destruct (String.eqb_spec k' k0) as [->|_]; [congruence|done].
  - by rewrite IH.
Qed.

Lemma keys_setattr k v d : keys (setattr k v d) = keys d.
Proof.
  unfold keys. induction d as [|[k0 v0] d IH]; simpl; [done|].
  destruct (String.eqb k k0); simpl; [done|]. by f_equal.
Qed.

Lemma lookup_key_Some_keys k v d : lookup_key k d = Some v -> k ∈ keys d.
Proof.
  unfold keys. induction d as [|[k0 v0] d IH]; simpl; [discriminate|].
  destruct (String.eqb_spec k k0) as [->|_]; intros H.
  - apply list_elem_of_here.
  - apply list_elem_of_further. auto.
Qed.

Lemma lookup_key_None_keys k d : lookup_key k d = None -> k ∉ keys d.
Proof.
  unfold keys. induction d as [|[k0 v0] d IH]; simpl; intros H.
  - apply not_elem_of_nil.
  - destruct (String.eqb_spec k k0) as [->|Hne]; [discriminate|].
    rewrite not_elem_of_cons. auto.
Qed.

(** ** The transformer *)

Lemma from_val_inj f f' : from_val f = from_val f' -> f = f'.
Proof.
  destruct f as [n|ns], f' as [n'|ns']; simpl; intros H.
  - congruence.
  - discriminate.
  - discriminate.
  - f_equal. injection H as H. revert ns' H.
    induction ns as [|x ns IH]; intros [|y ns'] H; simpl in *; try discriminate; [done|].
    injection H as -> H. f_equal. auto.
Qed.

Lemma layer_spec_inj f r m a f' r' m' a' :
  layer_spec f r m a = layer_spec f' r' m' a' -> f = f' /\ r = r' /\ m = m' /\ a = a'.
Proof.
  unfold layer_spec. intros H. injection H as Hf -> -> ->.
  apply from_val_inj in Hf. auto.
Qed.

Lemma shift_index_shifted n : index_shifted n (shift_index n).
Proof.
  unfold index_shifted, shift_index.
  destruct (Z.leb_spec 10 n); split; intros; lia.
Qed.

Lemma shift_ref_shifted f : ref_shifted f (shift_ref f).
Proof.
  destruct f as [n|ns]; simpl.
  - apply shift_index_shifted.
  - induction ns as [|x ns IH]; simpl; constructor; auto using shift_index_shifted.
Qed.

Lemma shift_element_int n : shift_element (VInt n) = VInt (shift_index n).
Proof. unfold shift_element, shift_index. by destruct (10 <=? n)%Z. Qed.

Lemma shift_layer_spec f r m a :
  shift_layer (layer_spec f r m a) = Ok (layer_spec (shift_ref f) r m a).
Proof.
  destruct f as [n|ns]; unfold layer_spec; simpl.
  - unfold shift_index. by destruct (10 <=? n)%Z.
  - do 3 f_equal. f_equal. rewrite <- !list_fmap_compose.
    apply list_fmap_ext. intros i x _. simpl. apply shift_element_int.
Qed.

Lemma rmapM_shift_layer hd :
  Forall is_layer_spec hd ->
  exists hd', rmapM shift_layer hd = Ok hd' /\ Forall2 layer_shifted hd hd'.
Proof.
  induction 1 as [|l hd (f & r & m & a & ->) _ (hd' & IH & Hall)]; cbn [rmapM].
  - exists []. split; [done|constructor].
  - rewrite shift_layer_spec. cbn [rbind]. rewrite IH. cbn [rbind].
    eexists. split; [done|]. constructor; [|done].
    by exists f, r, m, a.
Qed.

Lemma process_model_attention cfg att bb hd :
  getattr (template cfg) "ATTENTION" = Ok att -> truthy att = true ->
  getattr (template cfg) "backbone" = Ok (VList bb) ->
  getattr (template cfg) "head" = Ok (VList hd) ->
  Forall is_layer_spec hd ->
  exists hd',
    process_model cfg =
      Ok (with_template cfg
            (setattr "head" (VList hd')
               (setattr "backbone" (VList (bb ++ [attention_layer att])) (template cfg)))) /\
    Forall2 layer_shifted hd hd'.
Proof.
  intros Ha Ht Hb Hh Hall.
  destruct (rmapM_shift_layer hd Hall) as (hd' & Hm & H2).
  exists hd'. split; [|done].
  unfold process_model. rewrite Ha. simpl. rewrite Ht, Hb. simpl.
  unfold getattr at 1. rewrite lookup_key_setattr_ne by done.
  apply getattr_Ok in Hh. rewrite Hh. simpl. by rewrite Hm.
Qed.

(** C2: when [process_model] inserts the attention layer, every LayerSpec of
    the head comes back with the same repeats, module and args and with its
    [from] rewritten by the rule of [ref_shifted]: a single index of 10 or
    more is incremented by exactly 1, a single index below 10 (negative ones
    included) is unchanged, and a list-valued [from] is rewritten element by
    element under the same rule. *)
Theorem process_model_shifts_head cfg att bb hd :
  getattr (template cfg) "ATTENTION" = Ok att -> truthy att = true ->
  getattr (template cfg) "backbone" = Ok (VList bb) ->
  getattr (template cfg) "head" = Ok (VList hd) ->
  Forall is_layer_spec hd ->
  exists hd',
    head_after cfg = Ok (VList hd') /\ length hd' = length hd /\
    forall i f r m a, hd !! i = Some (layer_spec f r m a) ->
      exists f', hd' !! i = Some (layer_spec f' r m a) /\ ref_shifted f f'.
Proof.
  intros Ha Ht Hb Hh Hall.
  destruct (process_model_attention cfg att bb hd Ha Ht Hb Hh Hall) as (hd' & Hpm & H2).
  exists hd'. split; [|split].
  - unfold head_after. rewrite Hpm. simpl. unfold getattr.
    rewrite lookup_key_setattr_eq; [done|].
    rewrite lookup_key_setattr_ne by done.
    apply getattr_Ok in Hh. rewrite Hh. eauto.
  - symmetry. eapply Forall2_length, H2.
  - intros i f r m a Hi.
    destruct (Forall2_lookup_l _ _ _ _ _ H2 Hi) as (l' & Hi' & f0 & r0 & m0 & a0 & Hl & ->).
    apply layer_spec_inj in Hl as (-> & -> & -> & ->).
    exists (shift_ref f0). split; [done|]. apply shift_ref_shifted.
Qed.

Lemma process_model_shifts_head_witness :
  exists hd',
    head_after Scenario.mixed_head = Ok (VList hd') /\
    length hd' = length Scenario.mixed_layers /\
    forall i f r m a, Scenario.mixed_layers !! i = Some (layer_spec f r m a) ->
      exists f', hd' !! i = Some (layer_spec f' r m a) /\ ref_shifted f f'.
Proof.
  apply (process_model_shifts_head Scenario.mixed_head (VStr "EIEStem")
           Scenario.backbone Scenario.mixed_layers);
    [reflexivity | reflexivity | reflexivity | reflexivity |].
  unfold Scenario.mixed_layers.
  repeat (constructor; [unfold is_layer_spec; eauto|]). constructor.
Defined.

(** The run behind the witness, evaluated. *)
Example process_model_mixed_head :
  head_after Scenario.mixed_head =
    Ok (VList
          [ layer_spec (Multi [-1; 6]%Z) 1 "Concat" [VInt 1];
            layer_spec (Single (-1)) 2 "C3k2" [VInt 512; VBool false];
            layer_spec (Multi [-1; 14]%Z) 1 "Concat" [VInt 1];
            layer_spec (Single 4) 1 "Conv" [VInt 256; VInt 3; VInt 2];
            layer_spec (Multi [17; 20; 23]%Z) 1 "Detect" [VInt 80];
            layer_spec (Single 13) 1 "Detect" [VInt 256] ]).
Proof. reflexivity. Qed.

(** C3, as stated: with backbone length 10 and the attention option set,
    [from = [-1, 8]] does not come back as [[-1, 9]]. *)
Lemma list_from_8_is_not_rewritten_to_9 :
  head_after Scenario.with_list_from <>
    Ok (VList [Scenario.detect (VList [VInt (-1); VInt 9])]).
Proof. vm_compute. intros H. discriminate H. Qed.

Lemma shift_index_below n : (n < 10)%Z -> shift_index n = n.
Proof. intros H. unfold shift_index. destruct (Z.leb_spec 10 n); [lia|done]. Qed.

(** C3, amended: with backbone length 10 and the attention option set, a
    head LayerSpec with [from = [-1, 8]] keeps [from = [-1, 8]]: both
    elements are below 10, and a list-form [from] whose elements are all
    below 10 is never changed by the rewrite. *)
Theorem list_from_below_10_is_kept :
  (forall ns r m a,
     Forall (fun n => (n < 10)%Z) ns ->
     shift_layer (layer_spec (Multi ns) r m a) = Ok (layer_spec (Multi ns) r m a)) /\
  head_after Scenario.with_list_from =
    Ok (VList [Scenario.detect (VList [VInt (-1); VInt 8])]).
Proof.
  split; [|reflexivity].
  intros ns r m a Hall. rewrite shift_layer_spec. do 2 f_equal. cbn [shift_ref]. f_equal.
  induction Hall as [|n ns Hn _ IH]; [done|].
  rewrite fmap_cons, IH. by rewrite shift_index_below.
Qed.

(** ** The file system *)

Lemma mkdir_chain_spec todo : forall made (fs0 : gmap (list string) Os.Inode),
  (forall k c, fs0 !! (made ++ take k todo) <> Some (Os.File c)) ->
  exists fs1,
    Os.mkdir_chain made todo fs0 = Ok fs1 /\
    (forall k, 0 < k <= length todo -> fs1 !! (made ++ take k todo) = Some Os.Dir) /\
    (forall q x, fs0 !! q = Some x -> fs1 !! q = Some x) /\
    (forall q, length (made ++ todo) < length q -> fs1 !! q = fs0 !! q).
Proof.
  induction todo as [|seg todo IH]; intros made fs0 Hnf; cbn [Os.mkdir_chain].
  - exists fs0. split; [done|]. split; [simpl; intros; lia|]. split; auto.
  - assert (Hstep : forall fs' : gmap (list string) Os.Inode, (forall q, q <> made ++ [seg] -> fs' !! q = fs0 !! q) ->
        fs' !! (made ++ [seg]) = Some Os.Dir ->
        forall k c, fs' !! ((made ++ [seg]) ++ take k todo) <> Some (Os.File c)).
    { intros fs' Hsame Hdir k c. rewrite <- app_assoc. simpl.
      destruct (decide (made ++ seg :: take k todo = made ++ [seg])) as [->|Hne].
      - rewrite Hdir. discriminate.
      - rewrite Hsame by done. apply (Hnf (S k)). }
    assert (Hlen : forall q, length (made ++ seg :: todo) < length q ->
        length ((made ++ [seg]) ++ todo) < length q /\ q <> made ++ [seg]).
    { intros q Hq. rewrite !length_app in *. simpl in *. split; [lia|].
      intros ->. rewrite length_app in Hq. simpl in Hq. lia. }
    destruct (fs0 !! (made ++ [seg])) as [[|c]|] eqn:E.
    + destruct (IH (made ++ [seg]) fs0) as (fs1 & Hrun & Hdirs & Hkeep & Hfar).
      { apply Hstep; auto. }
      exists fs1. split; [done|]. split; [|split].
      * intros [|[|k]] Hk; [lia| |].
        -- simpl. rewrite take_0. by apply Hkeep.
        -- specialize (Hdirs (S k)). rewrite <- app_assoc in Hdirs. apply Hdirs.
           simpl in *. lia.
      * done.
      * intros q Hq. apply Hfar, Hlen, Hq.
    + exfalso. apply (Hnf 1 c). simpl. by rewrite take_0.
    + destruct (IH (made ++ [seg]) (<[made ++ [seg] := Os.Dir]> fs0))
        as (fs1 & Hrun & Hdirs & Hkeep & Hfar).
      { apply Hstep.
        - intros q Hq. by rewrite lookup_insert_ne.
        - apply lookup_insert_eq. }
      exists fs1. split; [done|]. split; [|split].
      * intros [|[|k]] Hk; [lia| |].
        -- simpl. rewrite take_0. apply Hkeep, lookup_insert_eq.
        -- specialize (Hdirs (S k)). rewrite <- app_assoc in Hdirs. apply Hdirs.
           simpl in *. lia.
      * intros q x Hq. apply Hkeep. rewrite lookup_insert_ne; [done|].
        intros <-. congruence.
      * intros q Hq. destruct (Hlen q Hq) as [Hq1 Hq2].
        rewrite Hfar by done. by rewrite lookup_insert_ne.
Qed.

(** Lines 157-158: after them the directory is there, nothing that existed
    is lost, and nothing below the directory is touched. *)
Lemma ensure_dir_spec fs0 d :
  no_file_on fs0 d ->
  d <> [] ->
  exists fs1,
    (if Os.path_exists fs0 d then Ok fs0 else Os.makedirs fs0 d) = Ok fs1 /\
    fs1 !! d = Some Os.Dir /\
    (forall q x, fs0 !! q = Some x -> fs1 !! q = Some x) /\
    (forall q, length d < length q -> fs1 !! q = fs0 !! q).
Proof.
  intros Hnf Hd. unfold Os.makedirs.
  destruct (Os.path_exists fs0 d) eqn:E.
  - exists fs0. split; [done|]. split; [|auto].
    unfold Os.path_exists in E. apply bool_decide_eq_true in E as [->|[x Hx]]; [done|].
    destruct x as [|c]; [done|].
    exfalso. apply (Hnf (length d) c). by rewrite take_ge.
  - destruct (mkdir_chain_spec d [] fs0) as (fs1 & Hrun & Hdirs & Hkeep & Hfar).
    { intros k c. simpl. apply Hnf. }
    exists fs1. split; [done|]. split; [|split; [done|]].
    + specialize (Hdirs (length d)). simpl in Hdirs. rewrite take_ge in Hdirs by done.
      apply Hdirs. destruct d; [done|]. simpl. lia.
    + intros q Hq. apply Hfar. by simpl.
Qed.

Lemma write_file_spec fs1 d f content :
  fs1 !! d = Some Os.Dir ->
  fs1 !! (d ++ [f]) <> Some Os.Dir ->
  Os.write_file fs1 (d ++ [f]) content = Ok (<[d ++ [f] := Os.File content]> fs1).
Proof.
  intros Hd Hp. unfold Os.write_file. rewrite removelast_last.
  assert (Os.is_dir fs1 d = true) as ->.
  { unfold Os.is_dir. destruct d; [done|]. by rewrite Hd. }
  assert (Os.is_dir fs1 (d ++ [f]) = false) as ->; [|done].
  unfold Os.is_dir. destruct (d ++ [f]) eqn:E; [by destruct d|].
  destruct (fs1 !! (s :: l)) as [[|c]|]; done.
Qed.

Lemma div_plain p s : plain_component s -> Os.div p s = p ++ [s].
Proof. intros [Habs Hparts]. unfold Os.div. by rewrite Habs, Hparts. Qed.

(** ** Running [main] *)

Lemma rbind_Ok {A B} (r : result A) (k : A -> result B) b :
  rbind r k = Ok b -> exists a, r = Ok a /\ k a = Ok b.
Proof. destruct r as [a|e]; simpl; [eauto|discriminate]. Qed.

Lemma head_mismatch_Ok t b :
  head_mismatch t = Ok b ->
  exists name HEAD x y,
    lookup_key "name" t = Some name /\ lookup_key "HEAD" t = Some HEAD /\
    py_in head_marker name = Ok x /\ py_in head_marker HEAD = Ok y /\ b = xorb x y.
Proof.
  unfold head_mismatch. intros H.
  apply rbind_Ok in H as (name & Hn & H). apply rbind_Ok in H as (x & Hx & H).
  apply rbind_Ok in H as (HEAD & Hh & H). apply rbind_Ok in H as (y & Hy & H).
  apply getattr_Ok in Hn, Hh. exists name, HEAD, x, y. repeat split; congruence.
Qed.

Lemma plain_literals :
  plain_component "configs" /\ plain_component "model" /\ plain_component "generate".
Proof. repeat split; vm_compute; reflexivity. Qed.

Section Running.

Variable set_iter : list string -> list string.
Variable repr_other : PyVal -> string.
Variable emit : Yaml.Node -> string.
Variable ROOT : list string.

Lemma main_head_rejects cfg now w mname :
  model_name set_iter (template cfg) = Ok mname ->
  head_mismatch (template cfg) = Ok true ->
  main set_iter repr_other emit ROOT cfg now w =
    (Ok tt, {| fs := fs w; stdout := stdout w ++ [name_line mname; msg_head_mismatch] |}).
Proof.
  intros Hn Hh. unfold main, mbind, lift, print. rewrite Hn, Hh. simpl.
  by rewrite <- app_assoc.
Qed.

Lemma main_head_passes cfg now w mname :
  model_name set_iter (template cfg) = Ok mname ->
  head_mismatch (template cfg) = Ok false ->
  main set_iter repr_other emit ROOT cfg now w =
    after_head_check repr_other emit ROOT cfg now mname
      {| fs := fs w; stdout := stdout w ++ [name_line mname] |}.
Proof.
  intros Hn Hh. unfold main, mbind, lift, print. by rewrite Hn, Hh.
Qed.

Lemma after_head_check_rejects cfg now w mname :
  attention_mismatch (template cfg) = Ok true ->
  after_head_check repr_other emit ROOT cfg now mname w =
    (Ok tt, {| fs := fs w; stdout := stdout w ++ [msg_attention_mismatch] |}).
Proof.
  intros Ha. unfold after_head_check, mbind, lift, print. by rewrite Ha.
Qed.

Lemma after_head_check_passes cfg now w mname :
  attention_mismatch (template cfg) = Ok false ->
  after_head_check repr_other emit ROOT cfg now mname w =
    generate repr_other emit ROOT cfg now mname w.
Proof.
  intros Ha. unfold after_head_check, mbind, lift. by rewrite Ha.
Qed.

Lemma user_generate_dir_plain cfg u r :
  user cfg = VStr u -> run_name cfg = VStr r ->
  plain_component u ->
  plain_component (run_segment (py_format repr_other (time cfg)) r) ->
  user_generate_dir repr_other ROOT cfg =
    Ok (generate_dir_of ROOT u (py_format repr_other (time cfg)) r).
Proof.
  intros Hu Hr Hpu Hps. destruct plain_literals as (Hc & Hm & Hg).
  unfold user_generate_dir, path_div, generate_dir_of. rewrite Hu, Hr. cbn [expect_str rbind].
  rewrite (div_plain _ _ Hc), (div_plain _ _ Hm), (div_plain _ _ Hpu), (div_plain _ _ Hg).
  unfold run_segment in *. cbn [is_the_str].
  destruct (String.eqb_spec default_run_name r) as [<-|Hne].
  - rewrite decide_True in Hps |- * by done. cbn [rbind].
    rewrite (div_plain _ _ Hps). by rewrite <- !app_assoc.
  - rewrite decide_False in Hps |- * by congruence. cbn [str_add rbind].
    rewrite (div_plain _ _ Hps). by rewrite <- !app_assoc.
Qed.

Lemma header_comment_present cfg t now mname :
  is_Some (lookup_key "name" t) -> is_Some (lookup_key "HEAD" t) ->
  header_fields_present t ->
  exists h, header_comment repr_other cfg (setattr "name" (VStr mname) t) now mname = Ok h.
Proof.
  intros Hn [hd Hh] ([ds Hd] & [cv Hc] & [fu Hf]).
  unfold header_comment, getattr.
  rewrite lookup_key_setattr_eq by done.
  rewrite !lookup_key_setattr_ne by done.
  rewrite Hd, Hc, Hf, Hh. simpl. eauto.
Qed.

(** What [generate] does when nothing stands in its way. *)
Lemma generate_spec cfg now mname w u r h :
  let t := setattr "name" (VStr mname) (template cfg) in
  let d := generate_dir_of ROOT u (py_format repr_other (time cfg)) r in
  let p := d ++ [mname +:+ ".yaml"] in
  user cfg = VStr u -> run_name cfg = VStr r ->
  plain_component u ->
  plain_component (run_segment (py_format repr_other (time cfg)) r) ->
  plain_component (mname +:+ ".yaml") ->
  header_comment repr_other cfg t now mname = Ok h ->
  no_file_on (fs w) d ->
  fs w !! p <> Some Os.Dir ->
  exists fs1,
    generate repr_other emit ROOT cfg now mname w =
      (Ok tt,
       {| fs := <[p := Os.File (h +:+ Yaml.format_yaml_content emit (oc_to_dict t))]> fs1;
          stdout := stdout w ++ [created_line p] |}) /\
    fs1 !! d = Some Os.Dir /\
    (forall q x, fs w !! q = Some x -> fs1 !! q = Some x) /\
    (forall q, length d < length q -> fs1 !! q = fs w !! q).
Proof.
  intros t d p Hu Hr Hpu Hps Hpf Hh Hnf Hp.
  destruct (ensure_dir_spec (fs w) d Hnf) as (fs1 & Hrun & Hd & Hkeep & Hfar).
  { unfold d, generate_dir_of. by destruct ROOT. }
  exists fs1. split; [|done].
  unfold generate, mbind, lift, with_fs, print.
  rewrite (user_generate_dir_plain cfg u r Hu Hr Hpu Hps). fold d.
  rewrite (div_plain _ _ Hpf). fold p. fold t.
  assert (Hp1 : fs1 !! p <> Some Os.Dir).
  { rewrite Hfar; [done|]. unfold p. rewrite length_app. simpl. lia. }
  destruct (Os.path_exists (fs w) d) eqn:E.
  - injection Hrun as <-. rewrite Hh. cbn [fs stdout].
    by rewrite (write_file_spec (fs w) d _ _ Hd Hp1).
  - rewrite Hrun. cbn [fs stdout]. rewrite Hh. cbn [fs stdout].
    by rewrite (write_file_spec fs1 d _ _ Hd Hp1).
Qed.

(** An accepted request on a file system that lets it through. *)
Lemma main_accepts cfg now w mname u r :
  let t := setattr "name" (VStr mname) (template cfg) in
  let d := generate_dir_of ROOT u (py_format repr_other (time cfg)) r in
  let p := d ++ [mname +:+ ".yaml"] in
  accepted set_iter cfg mname ->
  header_fields_present (template cfg) ->
  user cfg = VStr u -> run_name cfg = VStr r ->
  plain_component u ->
  plain_component (run_segment (py_format repr_other (time cfg)) r) ->
  plain_component (mname +:+ ".yaml") ->
  no_file_on (fs w) d ->
  fs w !! p <> Some Os.Dir ->
  exists h fs1,
    header_comment repr_other cfg t now mname = Ok h /\
    main set_iter repr_other emit ROOT cfg now w =
      (Ok tt,
       {| fs := <[p := Os.File (h +:+ Yaml.format_yaml_content emit (oc_to_dict t))]> fs1;
          stdout := stdout w ++ [name_line mname; created_line p] |}) /\
    fs1 !! d = Some Os.Dir /\
    (forall q x, fs w !! q = Some x -> fs1 !! q = Some x) /\
    (forall q, length d < length q -> fs1 !! q = fs w !! q).
Proof.
  intros t d p (Hn & Hhm & Ham) Hhf Hu Hr Hpu Hps Hpf Hnf Hp.
  destruct (head_mismatch_Ok _ _ Hhm) as (name & HEAD & x & y & Hname & HHEAD & _).
  destruct (header_comment_present cfg (template cfg) now mname) as [h Hh]; eauto.
  destruct (generate_spec cfg now mname
              {| fs := fs w; stdout := stdout w ++ [name_line mname] |} u r h)
    as (fs1 & Hrun & Hd & Hkeep & Hfar); try done.
  exists h, fs1. split; [done|]. split; [|done].
  rewrite (main_head_passes cfg now w mname Hn Hhm).
  rewrite (after_head_check_passes cfg now _ mname Ham).
  rewrite Hrun. cbn [fs stdout]. by rewrite <- app_assoc.
Qed.

End Running.

(** ** The consistency checks *)

Lemma head_mismatch_str t n h :
  getattr t "name" = Ok (VStr n) -> getattr t "HEAD" = Ok (VStr h) ->
  head_mismatch t = Ok (xorb (str_contains head_marker n) (str_contains head_marker h)).
Proof. intros Hn Hh. unfold head_mismatch. by rewrite Hn, Hh. Qed.

Lemma attention_mismatch_str t n att :
  getattr t "name" = Ok (VStr n) -> getattr t "ATTENTION" = Ok att ->
  attention_mismatch t = Ok (xorb (str_contains attention_marker n) (is_not_None att)).
Proof. intros Hn Ha. unfold attention_mismatch. by rewrite Hn, Ha. Qed.

Lemma xorb_true_ne a b : a <> b -> xorb a b = true.
Proof. destruct a, b; simpl; congruence. Qed.

Lemma xorb_false_eq a b : a = b -> xorb a b = false.
Proof. intros ->. by destruct b. Qed.

(** C4: with a string [HEAD], when the multi-head marker is in exactly one
    of the template name and the [HEAD] option field, [main] prints the
    warning after the model name and returns, leaving the file system as it
    was; when the marker is in both or in neither, [main] goes on to the
    attention check. *)
Theorem head_rule (set_iter : list string -> list string) (repr_other : PyVal -> string)
    (emit : Yaml.Node -> string) (ROOT : list string) cfg now w mname n h :
  getattr (template cfg) "name" = Ok (VStr n) ->
  getattr (template cfg) "HEAD" = Ok (VStr h) ->
  model_name set_iter (template cfg) = Ok mname ->
  (str_contains head_marker n <> str_contains head_marker h ->
     main set_iter repr_other emit ROOT cfg now w =
       (Ok tt, {| fs := fs w;
                  stdout := stdout w ++ [name_line mname; msg_head_mismatch] |})) /\
  (str_contains head_marker n = str_contains head_marker h ->
     main set_iter repr_other emit ROOT cfg now w =
       after_head_check repr_other emit ROOT cfg now mname
         {| fs := fs w; stdout := stdout w ++ [name_line mname] |}).
Proof.
  intros Hn Hh Hm. pose proof (head_mismatch_str _ _ _ Hn Hh) as Hx. split; intros Hc.
  - apply main_head_rejects; [done|]. by rewrite Hx, xorb_true_ne.
  - apply main_head_passes; [done|]. by rewrite Hx, xorb_false_eq.
Qed.

Lemma head_rule_witness :
  main Scenario.declared_order Scenario.repr_other Scenario.emit Scenario.ROOT
       Scenario.head_disagrees Scenario.now Scenario.world0 =
    (Ok tt, {| fs := ∅;
               stdout := [name_line "yolo11-4Head-ADown-AFPNHead"; msg_head_mismatch] |}).
Proof.
  refine (proj1 (head_rule Scenario.declared_order Scenario.repr_other Scenario.emit
                   Scenario.ROOT Scenario.head_disagrees Scenario.now Scenario.world0
                   "yolo11-4Head-ADown-AFPNHead" "yolo11-4Head" "AFPNHead" _ _ _) _).
  - reflexivity.
  - reflexivity.
  - vm_compute. reflexivity.
  - vm_compute. discriminate.
Defined.

(** C5, as stated: with [ATTENTION] present but empty no attention module
    is selected.  A name without the attention marker then agrees with the
    selection, and the request is rejected; a name with the marker disagrees
    with it, and the request goes through to the written file. *)
Lemma empty_attention_counts_as_selected :
  (str_contains attention_marker "yolo11" =
     attention_selected (template Scenario.empty_attention) /\
   main Scenario.declared_order Scenario.repr_other Scenario.emit Scenario.ROOT
        Scenario.empty_attention Scenario.now Scenario.world0 =
     (Ok tt, {| fs := ∅;
                stdout := [name_line "yolo11-ADown-Detect"; msg_attention_mismatch] |})) /\
  (str_contains attention_marker "yolo11-attn" <>
     attention_selected (template Scenario.empty_attention_advertised) /\
   stdout (main Scenario.declared_order Scenario.repr_other Scenario.emit Scenario.ROOT
             Scenario.empty_attention_advertised Scenario.now Scenario.world0).2 =
     [ name_line "yolo11-attn-ADown-Detect";
       created_line (Scenario.generate_dir ++ ["yolo11-attn-ADown-Detect.yaml"]) ]).
Proof.
  split; split; try (vm_compute; reflexivity).
  vm_compute. discriminate.
Qed.

(** C5, amended: past the multi-head check, the request goes through
    exactly when "the name contains the attention marker" equals
    "[ATTENTION] is not [None]" (an empty string counts as a selection);
    when the two differ, [main] prints the attention warning after the model
    name and returns, leaving the file system as it was. *)
Theorem attention_rule (set_iter : list string -> list string)
    (repr_other : PyVal -> string) (emit : Yaml.Node -> string) (ROOT : list string)
    cfg now w mname n att :
  getattr (template cfg) "name" = Ok (VStr n) ->
  getattr (template cfg) "ATTENTION" = Ok att ->
  model_name set_iter (template cfg) = Ok mname ->
  head_mismatch (template cfg) = Ok false ->
  (str_contains attention_marker n <> is_not_None att ->
     main set_iter repr_other emit ROOT cfg now w =
       (Ok tt, {| fs := fs w;
                  stdout := stdout w ++ [name_line mname; msg_attention_mismatch] |})) /\
  (str_contains attention_marker n = is_not_None att ->
     main set_iter repr_other emit ROOT cfg now w =
       generate repr_other emit ROOT cfg now mname
         {| fs := fs w; stdout := stdout w ++ [name_line mname] |}).
Proof.
  intros Hn Ha Hm Hh. pose proof (attention_mismatch_str _ _ _ Hn Ha) as Hx.
  rewrite (main_head_passes _ _ _ _ cfg now w mname Hm Hh). split; intros Hc.
  - rewrite after_head_check_rejects by (by rewrite Hx, xorb_true_ne).
    cbn [fs stdout]. by rewrite <- app_assoc.
  - apply after_head_check_passes. by rewrite Hx, xorb_false_eq.
Qed.

Lemma attention_rule_witness :
  main Scenario.declared_order Scenario.repr_other Scenario.emit Scenario.ROOT
       Scenario.attention_missing Scenario.now Scenario.world0 =
    (Ok tt, {| fs := ∅;
               stdout := [name_line "yolo11-attn-ADown-Detect"; msg_attention_mismatch] |}).
Proof.
  refine (proj1 (attention_rule Scenario.declared_order Scenario.repr_other Scenario.emit
                   Scenario.ROOT Scenario.attention_missing Scenario.now Scenario.world0
                   "yolo11-attn-ADown-Detect" "yolo11-attn" VNone _ _ _ _) _).
  - reflexivity.
  - reflexivity.
  - vm_compute. reflexivity.
  - vm_compute. reflexivity.
  - vm_compute. discriminate.
Defined.

(** ** The name composer *)

Lemma string_app_nil_r (s : string) : s +:+ "" = s.
Proof.
  induction s as [|c s IH]; [done|].
  change (String c (s +:+ "") = String c s). by rewrite IH.
Qed.


Lemma filter_none (l : list PyVal) :
  Forall (fun v => truthy v = false) l -> filter (fun v => truthy v = true) l = [].
Proof.
  induction 1 as [|v l Hv _ IH]; [done|].
  rewrite filter_cons. destruct (decide (truthy v = true)); [congruence|done].
Qed.

Lemma rmapM_expect_str_Ok L segs : rmapM expect_str L = Ok segs -> L = VStr <$> segs.
Proof.
  revert segs. induction L as [|v L IH]; intros segs; cbn [rmapM].
  - intros [= <-]. done.
  - intros H. apply rbind_Ok in H as (s & Hs & H). apply rbind_Ok in H as (ss & Hss & H).
    injection H as <-. destruct v; try discriminate. injection Hs as ->.
    simpl. f_equal. auto.
Qed.



Section Naming.

Variable set_iter : list string -> list string.
Hypothesis set_iter_perm : forall l, set_iter l ≡ₚ l.

Lemma elem_of_used_keys t k :
  k ∈ used_keys set_iter t <-> k ∈ keys t /\ k ∉ reserved_keys.
Proof.
  unfold used_keys. rewrite set_iter_perm, elem_of_remove_dups, list_elem_of_filter.
  tauto.
Qed.



Lemma model_name_Ok_strings t mname :
  model_name set_iter t = Ok mname -> options_are_strings t.
Proof.
  unfold model_name. intros H k Hk Hres Htr.
  apply rbind_Ok in H as (name & _ & H). apply rbind_Ok in H as (stem & _ & H).
  apply rbind_Ok in H as (joined & Hj & _).
  unfold str_join in Hj. apply rbind_Ok in Hj as (segs & Hsegs & _).
  apply rmapM_expect_str_Ok in Hsegs.
  assert (Hin : dict_get t k ∈
            filter (fun v => truthy v = true) (dict_get t <$> used_keys set_iter t)).
  { apply list_elem_of_filter. split; [done|].
    apply list_elem_of_fmap_2, elem_of_used_keys. done. }
  rewrite Hsegs in Hin. apply list_elem_of_fmap in Hin as (s & -> & _). by exists s.
Qed.

End Naming.





Lemma reversed_order_perm l : Scenario.reversed_order l ≡ₚ l.
Proof. unfold Scenario.reversed_order. symmetry. apply Permutation_rev. Qed.


(** The two names of the scenario, evaluated. *)
Example model_name_two_orders :
  model_name Scenario.declared_order (template Scenario.with_attention) =
    Ok "yolo11-attn-ADown-Detect-EIEStem" /\
  model_name Scenario.reversed_order (template Scenario.with_attention) =
    Ok "yolo11-attn-EIEStem-Detect-ADown".
Proof. split; vm_compute; reflexivity. Qed.

(** C9: for every template with a string name in which every non-reserved
    option field is empty (or there is none), the composed name is the
    template name followed by a hyphen. *)
Theorem model_name_trailing_hyphen (set_iter : list string -> list string) t n :
  (forall l, set_iter l ≡ₚ l) ->
  getattr t "name" = Ok (VStr n) ->
  (forall k, k ∈ keys t -> k ∉ reserved_keys -> truthy (dict_get t k) = false) ->
  model_name set_iter t = Ok (n +:+ "-").
Proof.
  intros Hperm Hn Hempty. unfold model_name, str_join. rewrite Hn. cbn [add_str rbind].
  rewrite filter_none.
  - simpl. by rewrite string_app_nil_r.
  - apply Forall_forall. intros v Hv.
    apply list_elem_of_fmap in Hv as (k & -> & Hk).
    apply (elem_of_used_keys set_iter Hperm) in Hk as [Hk Hres]. auto.
Qed.

Lemma no_options_all_empty k :
  k ∈ keys Scenario.no_options -> k ∉ reserved_keys ->
  truthy (dict_get Scenario.no_options k) = false.
Proof.
  intros Hk Hres. vm_compute in Hk.
  repeat (apply elem_of_cons in Hk as [->|Hk]); try reflexivity;
    try (exfalso; apply Hres; unfold reserved_keys; set_solver).
Qed.

Lemma model_name_trailing_hyphen_witness :
  model_name Scenario.reversed_order Scenario.no_options = Ok ("yolo11" +:+ "-").
Proof.
  apply (model_name_trailing_hyphen Scenario.reversed_order Scenario.no_options "yolo11").
  - exact reversed_order_perm.
  - reflexivity.
  - exact no_options_all_empty.
Defined.

(** ** The multi-head check and the type of [HEAD] *)

Lemma string_app_inv_head (s a b : string) : s +:+ a = s +:+ b -> a = b.
Proof.
  induction s as [|c s IH]; [done|].
  change (String c (s +:+ a) = String c (s +:+ b) -> a = b). intros [= H]. auto.
Qed.

Lemma two_lines_inv (a b a' b' : string) : [a; b] = [a'; b'] -> a = a' /\ b = b'.
Proof. intros H. split; congruence. Qed.

Lemma created_line_not_warning p : created_line p <> msg_head_mismatch.
Proof. unfold created_line, msg_head_mismatch. intros H. cbv in H. discriminate H. Qed.

Lemma HEAD_not_reserved : "HEAD" ∉ reserved_keys.
Proof. apply (bool_decide_unpack _). vm_compute. exact I. Qed.

Lemma head_mismatch_raises t :
  lookup_key "HEAD" t = None \/ lookup_key "HEAD" t = Some VNone ->
  exists e, head_mismatch t = Raise e.
Proof.
  intros HH. unfold head_mismatch, getattr.
  destruct (lookup_key "name" t) as [name|]; cbn [rbind]; [|eauto].
  destruct (py_in head_marker name) as [a|e]; cbn [rbind]; [|eauto].
  destruct HH as [-> | ->]; cbn; eauto.
Qed.

Section HeadCheck.

Variable set_iter : list string -> list string.
Variable repr_other : PyVal -> string.
Variable emit : Yaml.Node -> string.
Variable ROOT : list string.

Lemma generate_returns cfg now mname w w' :
  generate repr_other emit ROOT cfg now mname w = (Ok tt, w') ->
  exists p, stdout w' = stdout w ++ [created_line p].
Proof.
  unfold generate, mbind, lift, with_fs, print. intros H.
  destruct (user_generate_dir repr_other ROOT cfg) as [d|e]; [|discriminate].
  destruct (header_comment repr_other cfg _ now mname) as [h|e] eqn:Hh.
  - destruct (Os.path_exists (fs w) d).
    + cbn [fs stdout] in H.
      destruct (Os.write_file (fs w) _ _) as [fs2|e]; [|discriminate].
      injection H as <-. cbn [fs stdout]. eauto.
    + destruct (Os.makedirs (fs w) d) as [fs1|e]; [|discriminate].
      cbn [fs stdout] in H.
      destruct (Os.write_file fs1 _ _) as [fs2|e]; [|discriminate].
      injection H as <-. cbn [fs stdout]. eauto.
  - destruct (Os.path_exists (fs w) d); [discriminate|].
    destruct (Os.makedirs (fs w) d); discriminate.
Qed.

(** [main] ends on the multi-head warning only through the rejection of
    line 144. *)
Lemma main_head_rejection_inv cfg now w mname :
  main set_iter repr_other emit ROOT cfg now w =
    (Ok tt, {| fs := fs w; stdout := stdout w ++ [name_line mname; msg_head_mismatch] |}) ->
  model_name set_iter (template cfg) = Ok mname /\ head_mismatch (template cfg) = Ok true.
Proof.
  unfold main, mbind, lift, print.
  destruct (model_name set_iter (template cfg)) as [m|e]; [|discriminate].
  cbn [fs stdout].
  destruct (head_mismatch (template cfg)) as [[|]|e]; [| |discriminate].
  - intros [= H]. rewrite <- app_assoc in H. apply app_inv_head in H.
    apply two_lines_inv in H as [H _]. apply string_app_inv_head in H. by subst.
  - unfold after_head_check, mbind, lift, print.
    destruct (attention_mismatch (template cfg)) as [[|]|e]; [| |discriminate].
    + intros [= H]. rewrite <- app_assoc in H. apply app_inv_head in H.
      apply two_lines_inv in H as [_ H]. cbv in H. discriminate H.
    + intros H. apply generate_returns in H as [p H]. cbn [fs stdout] in H.
      rewrite <- app_assoc in H. apply app_inv_head in H.
      apply two_lines_inv in H as [_ H]. symmetry in H.
      by apply created_line_not_warning in H.
Qed.

End HeadCheck.

(** C10, as stated: with [HEAD] an empty list -- not a string -- and a
    multi-head template name, [main] takes the rejection-with-warning path. *)
Lemma empty_list_head_is_rejected :
  main Scenario.declared_order Scenario.repr_other Scenario.emit Scenario.ROOT
       Scenario.empty_list_head Scenario.now Scenario.world0 =
    (Ok tt, {| fs := ∅; stdout := [name_line "yolo11-4Head-ADown"; msg_head_mismatch] |}) /\
  getattr (template Scenario.empty_list_head) "HEAD" = Ok (VList []) /\
  ~ is_str (VList []).
Proof.
  split; [vm_compute; reflexivity|]. split; [reflexivity|].
  intros [s Hs]. discriminate Hs.
Qed.

(** C10, amended: the multi-head check needs a [HEAD] that supports a
    membership test.  For every template whose [HEAD] is absent or [None]
    the check raises, and [main] ends on that exception having printed at
    most the model name and written nothing; and [main] ends on the
    multi-head warning only when [HEAD] is a string, or an empty list or
    mapping. *)
Theorem head_check_needs_membership (set_iter : list string -> list string)
    (repr_other : PyVal -> string) (emit : Yaml.Node -> string) (ROOT : list string)
    cfg now w :
  (forall l, set_iter l ≡ₚ l) ->
  (lookup_key "HEAD" (template cfg) = None \/ lookup_key "HEAD" (template cfg) = Some VNone ->
     (exists e, head_mismatch (template cfg) = Raise e) /\
     exists e w',
       main set_iter repr_other emit ROOT cfg now w = (Raise e, w') /\
       fs w' = fs w /\
       (stdout w' = stdout w \/ exists mname, stdout w' = stdout w ++ [name_line mname])) /\
  (forall mname,
     main set_iter repr_other emit ROOT cfg now w =
       (Ok tt, {| fs := fs w;
                  stdout := stdout w ++ [name_line mname; msg_head_mismatch] |}) ->
     exists HEAD,
       lookup_key "HEAD" (template cfg) = Some HEAD /\
       (is_str HEAD \/ HEAD = VList [] \/ HEAD = VDict [])).
Proof.
  intros Hperm. split.
  - intros HH. destruct (head_mismatch_raises _ HH) as [e He]. split; [eauto|].
    unfold main, mbind, lift, print.
    destruct (model_name set_iter (template cfg)) as [m|e'].
    + rewrite He. cbn [fs stdout]. eexists _, _. split; [done|]. cbn [fs stdout]. eauto.
    + eexists _, _. split; [done|]. eauto.
  - intros mname H. apply main_head_rejection_inv in H as [Hm Hh].
    apply head_mismatch_Ok in Hh as (name & HEAD & x & y & _ & HHEAD & _ & Hy & _).
    exists HEAD. split; [done|].
    destruct (truthy HEAD) eqn:Ht.
    + left. pose proof (model_name_Ok_strings set_iter Hperm _ _ Hm "HEAD") as Hs.
      unfold dict_get in Hs. rewrite HHEAD in Hs. apply Hs; [|exact HEAD_not_reserved|done].
      eapply lookup_key_Some_keys, HHEAD.
    + destruct HEAD as [| | | |s|l|d]; try discriminate Hy.
      * left. by exists s.
      * right. left. destruct l; [done|discriminate Ht].
      * right. right. destruct d; [done|discriminate Ht].
Qed.

Lemma head_check_needs_membership_witness :
  (exists e, head_mismatch (template Scenario.none_head) = Raise e) /\
  exists e w',
    main Scenario.declared_order Scenario.repr_other Scenario.emit Scenario.ROOT
         Scenario.none_head Scenario.now Scenario.world0 = (Raise e, w') /\
    fs w' = fs Scenario.world0 /\
    (stdout w' = stdout Scenario.world0 \/
     exists mname, stdout w' = stdout Scenario.world0 ++ [name_line mname]).
Proof.
  refine (proj1 (head_check_needs_membership Scenario.declared_order Scenario.repr_other
                   Scenario.emit Scenario.ROOT Scenario.none_head Scenario.now
                   Scenario.world0 _) _).
  - intros l. reflexivity.
  - right. reflexivity.
Defined.

(** The run behind the witness, evaluated: a [TypeError], no warning. *)
Example none_head_raises :
  main Scenario.declared_order Scenario.repr_other Scenario.emit Scenario.ROOT
       Scenario.none_head Scenario.now Scenario.world0 =
    (Raise TypeError, {| fs := ∅; stdout := [name_line "yolo11-4Head-ADown"] |}).
Proof. vm_compute. reflexivity. Qed.

(** ** The serializer *)

















(** The layout of a small document: its sections are in block form, the
    layers and whatever they hold are inline. *)
Example small_document_layout :
  rendered 0
    (VDict [ ("nc", VInt 80);
             ("head", VList [ layer_spec (Multi [-1; 6]%Z) 1 "Concat" [VInt 1];
                              layer_spec (Single 12) 1 "Detect" [VList [VInt 256]] ]);
             ("names", VList [VStr "person"; VStr "car"]) ]) =
    Yaml.DMapping Yaml.Block
      [ (Yaml.DScalar (VStr "nc"), Yaml.DScalar (VInt 80));
        (Yaml.DScalar (VStr "head"),
         Yaml.DSequence Yaml.Block
           [ Yaml.DSequence Yaml.Inline
               [ Yaml.DSequence Yaml.Inline [Yaml.DScalar (VInt (-1)); Yaml.DScalar (VInt 6)];
                 Yaml.DScalar (VInt 1); Yaml.DScalar (VStr "Concat");
                 Yaml.DSequence Yaml.Inline [Yaml.DScalar (VInt 1)] ];
             Yaml.DSequence Yaml.Inline
               [ Yaml.DScalar (VInt 12); Yaml.DScalar (VInt 1); Yaml.DScalar (VStr "Detect");
                 Yaml.DSequence Yaml.Inline
                   [Yaml.DSequence Yaml.Inline [Yaml.DScalar (VInt 256)]] ] ]);
        (Yaml.DScalar (VStr "names"),
         Yaml.DSequence Yaml.Block [Yaml.DScalar (VStr "person"); Yaml.DScalar (VStr "car")]) ].
Proof. reflexivity. Qed.

(** ** The written file *)




Lemma world0_no_file d : no_file_on (fs Scenario.world0) d.
Proof. intros k c. cbn [Scenario.world0 fs]. rewrite lookup_empty. discriminate. Qed.

Lemma scenario_accepted :
  accepted Scenario.declared_order Scenario.with_attention Scenario.final_name.
Proof. repeat split; vm_compute; reflexivity. Qed.

Lemma scenario_header_fields : header_fields_present (template Scenario.with_attention).
Proof. repeat split; eexists; vm_compute; reflexivity. Qed.

Lemma scenario_plain :
  plain_component "test" /\
  plain_component (run_segment "t1754318068366" "create") /\
  plain_component (Scenario.final_name +:+ ".yaml").
Proof. repeat split; vm_compute; reflexivity. Qed.




(** The path of a run under a name other than the default. *)
Example named_run_path :
  forall emit : Yaml.Node -> string,
    stdout (main Scenario.declared_order Scenario.repr_other emit Scenario.ROOT
              Scenario.named_run Scenario.now Scenario.world0).2 =
      [ name_line "yolo11-attn-ADown-Detect-EIEStem";
        "   ✅ 模型创建成功: /home/user/EOLO/configs/model/test/generate/t1754318068366-sweep/yolo11-attn-ADown-Detect-EIEStem.yaml" ].
Proof. intros emit. vm_compute. reflexivity. Qed.

(** ** The attention layer and the pipeline *)

(** The scenario of the specification run through [process_model] alone. *)
Example process_model_scenario :
  backbone_after Scenario.with_attention =
    Ok (VList (Scenario.backbone ++ [VList [VInt (-1); VInt 1; VStr "EIEStem"; VList []]])) /\
  head_after Scenario.with_attention = Ok (VList [Scenario.detect (VInt 13)]) /\
  (cfg' <- process_model Scenario.with_attention ;;
   Ok (setattr "name" (VStr Scenario.final_name) (template cfg'))) =
    Ok Scenario.processed_template.
Proof. repeat split; vm_compute; reflexivity. Qed.

(** C1, as stated: in the scenario (backbone length 10, head entry
    [[12, 1, "Detect", [256]]], [ATTENTION = "EIEStem"]) the file [main]
    writes is not, for every emitter, the rendering of the template with the
    11th backbone entry and the head entry [[13, 1, "Detect", [256]]]. *)
Lemma written_document_lacks_attention_layer :
  ~ (forall emit : Yaml.Node -> string,
       exists h,
         header_comment Scenario.repr_other Scenario.with_attention
           (setattr "name" (VStr Scenario.final_name) (template Scenario.with_attention))
           Scenario.now Scenario.final_name = Ok h /\
         fs (main Scenario.declared_order Scenario.repr_other emit Scenario.ROOT
               Scenario.with_attention Scenario.now Scenario.world0).2
            !! Scenario.target =
           Some (Os.File (h +:+ Yaml.format_yaml_content emit
                                  (oc_to_dict Scenario.processed_template)))).
Proof.
  intros H. destruct (H Scenario.emit) as (h & Hh & Hf).
  vm_compute in Hh. injection Hh as <-.
  vm_compute in Hf. discriminate Hf.
Qed.

(** C1, amended: [process_model], applied to a template whose [ATTENTION]
    option is set, appends [[-1, 1, ATTENTION, []]] to the end of [backbone]
    and rewrites the head; [main] does not call it (the call on line 153 is
    commented out), so for an accepted request the document written is the
    rendering of the template with only its [name] replaced: [backbone] and
    [head] are those of the input. *)
Theorem attention_layer_only_in_process_model (set_iter : list string -> list string)
    (repr_other : PyVal -> string) (emit : Yaml.Node -> string) (ROOT : list string)
    cfg now w mname u r att bb hd :
  let t := setattr "name" (VStr mname) (template cfg) in
  let d := generate_dir_of ROOT u (py_format repr_other (time cfg)) r in
  let p := d ++ [mname +:+ ".yaml"] in
  getattr (template cfg) "ATTENTION" = Ok att -> truthy att = true ->
  getattr (template cfg) "backbone" = Ok (VList bb) ->
  getattr (template cfg) "head" = Ok (VList hd) ->
  Forall is_layer_spec hd ->
  accepted set_iter cfg mname ->
  header_fields_present (template cfg) ->
  user cfg = VStr u -> run_name cfg = VStr r ->
  plain_component u ->
  plain_component (run_segment (py_format repr_other (time cfg)) r) ->
  plain_component (mname +:+ ".yaml") ->
  no_file_on (fs w) d ->
  fs w !! p <> Some Os.Dir ->
  backbone_after cfg = Ok (VList (bb ++ [attention_layer att])) /\
  (exists hd', head_after cfg = Ok (VList hd') /\ Forall2 layer_shifted hd hd') /\
  exists h w',
    main set_iter repr_other emit ROOT cfg now w = (Ok tt, w') /\
    fs w' !! p = Some (Os.File (h +:+ Yaml.format_yaml_content emit (oc_to_dict t))) /\
    getattr t "backbone" = Ok (VList bb) /\
    getattr t "head" = Ok (VList hd).
Proof.
  intros t d p Ha Ht Hb Hh Hall Hacc Hhf Hu Hr Hpu Hps Hpf Hnf Hp.
  destruct (process_model_attention cfg att bb hd Ha Ht Hb Hh Hall) as (hd' & Hpm & H2).
  pose proof Hb as Hb'. pose proof Hh as Hh'. apply getattr_Ok in Hb', Hh'.
  split; [|split].
  - unfold backbone_after. rewrite Hpm. cbn [rbind template with_template]. unfold getattr.
    rewrite lookup_key_setattr_ne by done.
    rewrite lookup_key_setattr_eq; [done|eauto].
  - exists hd'. split; [|done].
    unfold head_after. rewrite Hpm. cbn [rbind template with_template]. unfold getattr.
    rewrite lookup_key_setattr_eq; [done|].
    rewrite lookup_key_setattr_ne by done. eauto.
  - destruct (main_accepts set_iter repr_other emit ROOT cfg now w mname u r
                Hacc Hhf Hu Hr Hpu Hps Hpf Hnf Hp) as (h & fs1 & _ & Hrun & _).
    eexists h, _. split; [exact Hrun|]. cbn [fs].
    split; [apply lookup_insert_eq|].
    unfold t, getattr. rewrite !lookup_key_setattr_ne by done.
    by rewrite Hb', Hh'.
Qed.

Lemma attention_layer_only_in_process_model_witness :
  backbone_after Scenario.with_attention =
    Ok (VList (Scenario.backbone ++ [attention_layer (VStr "EIEStem")])) /\
  (exists hd',
     head_after Scenario.with_attention = Ok (VList hd') /\
     Forall2 layer_shifted [Scenario.detect (VInt 12)] hd') /\
  exists h w',
    main Scenario.declared_order Scenario.repr_other Scenario.emit Scenario.ROOT
         Scenario.with_attention Scenario.now Scenario.world0 = (Ok tt, w') /\
    fs w' !! Scenario.target =
      Some (Os.File (h +:+ Yaml.format_yaml_content Scenario.emit
                             (oc_to_dict (setattr "name" (VStr Scenario.final_name)
                                            (template Scenario.with_attention))))) /\
    getattr (setattr "name" (VStr Scenario.final_name) (template Scenario.with_attention))
      "backbone" = Ok (VList Scenario.backbone) /\
    getattr (setattr "name" (VStr Scenario.final_name) (template Scenario.with_attention))
      "head" = Ok (VList [Scenario.detect (VInt 12)]).
Proof.
  apply (attention_layer_only_in_process_model Scenario.declared_order Scenario.repr_other
           Scenario.emit Scenario.ROOT Scenario.with_attention Scenario.now Scenario.world0
           Scenario.final_name "test" "create" (VStr "EIEStem") Scenario.backbone
           [Scenario.detect (VInt 12)]).
  - reflexivity.
  - reflexivity.
  - reflexivity.
  - reflexivity.
  - constructor; [|constructor].
    exists (Single 12), 1%Z, "Detect", [VInt 256]. reflexivity.
  - exact scenario_accepted.
  - exact scenario_header_fields.
  - reflexivity.
  - reflexivity.
  - exact (proj1 scenario_plain).
  - exact (proj1 (proj2 scenario_plain)).
  - exact (proj2 (proj2 scenario_plain)).
  - exact (world0_no_file _).
  - vm_compute. discriminate.
Defined.

(** * Further properties *)

(** ** The transformer on any template *)

Lemma shift_layer_indexable l :
  indexable l -> exists l', shift_layer l = Ok l' /\ same_tail l l'.
Proof.
  intros (a & rest & ->). destruct a; cbn [shift_layer]; eexists; (split; [done|]);
    by eexists _, _, rest.
Qed.

Lemma rmapM_shift_layer_indexable hd :
  Forall indexable hd ->
  exists hd', rmapM shift_layer hd = Ok hd' /\ Forall2 same_tail hd hd'.
Proof.
  induction 1 as [|l hd Hl _ (hd' & IH & Hall)]; cbn [rmapM].
  - exists []. split; [done|constructor].
  - destruct (shift_layer_indexable l Hl) as (l' & -> & Hst). cbn [rbind].
    rewrite IH. cbn [rbind]. eexists. split; [done|]. by constructor.
Qed.

(** X1: on a template whose [backbone] and [head] are lists and whose head
    layers are non-empty lists, [process_model] returns; it leaves [user],
    [time], [run_name], the order of the template's keys and every field
    other than [backbone] and [head] as they were; without an attention
    module nothing changes at all; with one, [backbone] is the old one plus
    the attention layer at its end, and every head layer keeps everything
    but its first element. *)
Theorem process_model_touches_backbone_and_head cfg att bb hd :
  getattr (template cfg) "ATTENTION" = Ok att ->
  getattr (template cfg) "backbone" = Ok (VList bb) ->
  getattr (template cfg) "head" = Ok (VList hd) ->
  Forall indexable hd ->
  exists cfg',
    process_model cfg = Ok cfg' /\
    user cfg' = user cfg /\ time cfg' = time cfg /\ run_name cfg' = run_name cfg /\
    keys (template cfg') = keys (template cfg) /\
    (forall k, k <> "backbone" -> k <> "head" ->
       lookup_key k (template cfg') = lookup_key k (template cfg)) /\
    (truthy att = false -> cfg' = cfg) /\
    (truthy att = true ->
       exists hd',
         getattr (template cfg') "backbone" = Ok (VList (bb ++ [attention_layer att])) /\
         getattr (template cfg') "head" = Ok (VList hd') /\
         Forall2 same_tail hd hd').
Proof.
  intros Ha Hb Hh Hall. unfold process_model. rewrite Ha. cbn [rbind].
  destruct (truthy att) eqn:Ht.
  - rewrite Hb. cbn [rbind backbone_append]. unfold getattr at 1.
    rewrite lookup_key_setattr_ne by done.
    pose proof Hb as Hb'. pose proof Hh as Hh'. apply getattr_Ok in Hb', Hh'.
    rewrite Hh'. cbn [rbind shift_head].
    destruct (rmapM_shift_layer_indexable hd Hall) as (hd' & -> & H2). cbn [rbind].
    eexists. split; [done|]. cbn [with_template template user time run_name].
    repeat split; try done.
    + by rewrite !keys_setattr.
    + intros k Hk1 Hk2. by rewrite !lookup_key_setattr_ne.
    + intros _. exists hd'. unfold getattr. split; [|split; [|done]].
      * rewrite lookup_key_setattr_ne by done.
        rewrite lookup_key_setattr_eq; [done|eauto].
      * rewrite lookup_key_setattr_eq; [done|].
        rewrite lookup_key_setattr_ne by done. eauto.
  - exists cfg. repeat split; try done.
Qed.

Lemma process_model_touches_backbone_and_head_witness :
  exists cfg',
    process_model Cases.loose = Ok cfg' /\
    user cfg' = user Cases.loose /\ time cfg' = time Cases.loose /\
    run_name cfg' = run_name Cases.loose /\
    keys (template cfg') = keys (template Cases.loose) /\
    (forall k, k <> "backbone" -> k <> "head" ->
       lookup_key k (template cfg') = lookup_key k (template Cases.loose)) /\
    (truthy (VStr "EIEStem") = false -> cfg' = Cases.loose) /\
    (truthy (VStr "EIEStem") = true ->
       exists hd',
         getattr (template cfg') "backbone" =
           Ok (VList (Scenario.backbone ++ [attention_layer (VStr "EIEStem")])) /\
         getattr (template cfg') "head" = Ok (VList hd') /\
         Forall2 same_tail Cases.loose_layers hd').
Proof.
  apply (process_model_touches_backbone_and_head Cases.loose (VStr "EIEStem")
           Scenario.backbone Cases.loose_layers);
    [reflexivity | reflexivity | reflexivity |].
  unfold Cases.loose_layers.
  repeat (constructor; [unfold indexable; eauto|]). constructor.
Defined.

(** The loose layers, evaluated: only integers of 10 or more move, at the
    front of a layer or inside a list at its front; a float, a string or a
    boolean stays. *)
Example process_model_loose_layers :
  head_after Cases.loose =
    Ok (VList
          [ VList [VInt 13]; VList [VStr "x"; VInt 1];
            VList [VFloat 12; VInt 1; VStr "Conv"; VList []];
            VList [VList [VInt 12; VStr "y"; VBool true]; VInt 1; VStr "Concat";
                   VList [VInt 1]] ]).
Proof. vm_compute. reflexivity. Qed.

(** X2: with a backbone of exactly 10 layers, the rewrite keeps every
    absolute reference on its layer.  In the sequence [backbone ++ head]
    after [process_model], the attention layer sits at position 10, no
    rewritten reference points at it, and the layer found at the rewritten
    position of [i] is the layer that was at [i], itself rewritten if it is a
    head layer. *)
Theorem references_follow_their_layers cfg att bb hd :
  getattr (template cfg) "ATTENTION" = Ok att -> truthy att = true ->
  getattr (template cfg) "backbone" = Ok (VList bb) ->
  getattr (template cfg) "head" = Ok (VList hd) ->
  Forall is_layer_spec hd ->
  length bb = 10 ->
  exists bb' hd',
    backbone_after cfg = Ok (VList bb') /\
    head_after cfg = Ok (VList hd') /\
    (bb' ++ hd') !! 10 = Some (attention_layer att) /\
    forall i l, (bb ++ hd) !! i = Some l ->
      shifted_position i <> 10 /\
      exists l', (bb' ++ hd') !! shifted_position i = Some l' /\
                 (l' = l \/ layer_shifted l l').
Proof.
  intros Ha Ht Hb Hh Hall Hlen.
  destruct (process_model_attention cfg att bb hd Ha Ht Hb Hh Hall) as (hd' & Hpm & H2).
  pose proof Hb as Hb'. pose proof Hh as Hh'. apply getattr_Ok in Hb', Hh'.
  exists (bb ++ [attention_layer att]), hd'. split; [|split; [|split]].
  - unfold backbone_after. rewrite Hpm. cbn [rbind template with_template]. unfold getattr.
    rewrite lookup_key_setattr_ne by done.
    rewrite lookup_key_setattr_eq; [done|eauto].
  - unfold head_after. rewrite Hpm. cbn [rbind template with_template]. unfold getattr.
    rewrite lookup_key_setattr_eq; [done|].
    rewrite lookup_key_setattr_ne by done. eauto.
  - rewrite <- app_assoc. rewrite lookup_app_r by lia. by rewrite Hlen.
  - intros i l Hi. unfold shifted_position, shift_index.
    destruct (Z.leb_spec 10 (Z.of_nat i)) as [Hge|Hlt].
    + split; [lia|].
      rewrite lookup_app_r in Hi by lia.
      destruct (Forall2_lookup_l _ _ _ _ _ H2 Hi) as (l' & Hi' & Hl).
      exists l'. split; [|by right].
      rewrite lookup_app_r by (rewrite length_app; simpl; lia).
      rewrite length_app. simpl. rewrite <- Hi'. f_equal. lia.
    + split; [lia|]. rewrite Nat2Z.id.
      rewrite lookup_app_l in Hi by lia.
      exists l. split; [|by left].
      rewrite <- app_assoc. by rewrite lookup_app_l by lia.
Qed.

Lemma references_follow_their_layers_witness :
  exists bb' hd',
    backbone_after Scenario.mixed_head = Ok (VList bb') /\
    head_after Scenario.mixed_head = Ok (VList hd') /\
    (bb' ++ hd') !! 10 = Some (attention_layer (VStr "EIEStem")) /\
    forall i l, (Scenario.backbone ++ Scenario.mixed_layers) !! i = Some l ->
      shifted_position i <> 10 /\
      exists l', (bb' ++ hd') !! shifted_position i = Some l' /\
                 (l' = l \/ layer_shifted l l').
Proof.
  apply (references_follow_their_layers Scenario.mixed_head (VStr "EIEStem")
           Scenario.backbone Scenario.mixed_layers);
    [reflexivity | reflexivity | reflexivity | reflexivity | | reflexivity].
  unfold Scenario.mixed_layers.
  repeat (constructor; [unfold is_layer_spec; eauto|]). constructor.
Defined.

Lemma index_moved_twice n : index_moved 2 n (shift_index (shift_index n)).
Proof.
  unfold index_moved, shift_index.
  destruct (Z.leb_spec 10 n); [destruct (Z.leb_spec 10 (n + 1))|destruct (Z.leb_spec 10 n)];
    split; intros; lia.
Qed.

Lemma ref_moved_twice f : ref_moved 2 f (shift_ref (shift_ref f)).
Proof.
  destruct f as [n|ns]; cbn [shift_ref ref_moved].
  - apply index_moved_twice.
  - induction ns as [|x ns IH]; [constructor|].
    rewrite !fmap_cons. constructor; [apply index_moved_twice|done].
Qed.

Lemma layer_shifted_spec l l' : layer_shifted l l' -> is_layer_spec l'.
Proof. intros (f & r & m & a & _ & ->). by exists (shift_ref f), r, m, a. Qed.

(** X3: [process_model] is not idempotent.  Applied to its own result it
    returns again, [backbone] then ends in two attention layers, and every
    head reference of 10 or more has moved up by 2 (those below 10 by
    nothing). *)
Theorem process_model_twice cfg att bb hd :
  getattr (template cfg) "ATTENTION" = Ok att -> truthy att = true ->
  getattr (template cfg) "backbone" = Ok (VList bb) ->
  getattr (template cfg) "head" = Ok (VList hd) ->
  Forall is_layer_spec hd ->
  exists cfg1 cfg2 hd2,
    process_model cfg = Ok cfg1 /\
    process_model cfg1 = Ok cfg2 /\
    getattr (template cfg2) "backbone" =
      Ok (VList (bb ++ [attention_layer att; attention_layer att])) /\
    getattr (template cfg2) "head" = Ok (VList hd2) /\
    Forall2 (layer_moved 2) hd hd2.
Proof.
  intros Ha Ht Hb Hh Hall.
  destruct (process_model_attention cfg att bb hd Ha Ht Hb Hh Hall) as (hd1 & Hpm1 & H1).
  pose proof Ha as Ha'. pose proof Hb as Hb'. pose proof Hh as Hh'.
  apply getattr_Ok in Ha', Hb', Hh'.
  set (cfg1 := with_template cfg
                 (setattr "head" (VList hd1)
                    (setattr "backbone" (VList (bb ++ [attention_layer att])) (template cfg))))
    in *.
  assert (Ha1 : getattr (template cfg1) "ATTENTION" = Ok att).
  { unfold getattr, cfg1. cbn [template with_template].
    rewrite !lookup_key_setattr_ne by done. by rewrite Ha'. }
  assert (Hb1 : getattr (template cfg1) "backbone" = Ok (VList (bb ++ [attention_layer att]))).
  { unfold getattr, cfg1. cbn [template with_template].
    rewrite lookup_key_setattr_ne by done. rewrite lookup_key_setattr_eq; [done|eauto]. }
  assert (Hh1 : getattr (template cfg1) "head" = Ok (VList hd1)).
  { unfold getattr, cfg1. cbn [template with_template].
    rewrite lookup_key_setattr_eq; [done|]. rewrite lookup_key_setattr_ne by done. eauto. }
  assert (Hall1 : Forall is_layer_spec hd1).
  { apply Forall_forall. intros l' Hl'.
    apply list_elem_of_lookup in Hl' as [i Hi].
    destruct (Forall2_lookup_r _ _ _ _ _ H1 Hi) as (l & _ & Hl).
    by eapply layer_shifted_spec. }
  destruct (process_model_attention cfg1 att _ hd1 Ha1 Ht Hb1 Hh1 Hall1)
    as (hd2 & Hpm2 & H2).
  eexists cfg1, _, hd2. split; [done|]. split; [exact Hpm2|].
  cbn [template with_template]. unfold getattr. split; [|split].
  - rewrite lookup_key_setattr_ne by done.
    rewrite lookup_key_setattr_eq; [|apply getattr_Ok in Hb1; eauto].
    by rewrite <- app_assoc.
  - rewrite lookup_key_setattr_eq; [done|].
    rewrite lookup_key_setattr_ne by done. apply getattr_Ok in Hh1. eauto.
  - clear -H1 H2. revert hd2 H2.
    induction H1 as [|l l1 hd hd1 (f & r & m & a & -> & ->) _ IH]; intros hd2 H2.
    + inversion H2. constructor.
    + inversion H2 as [|? l2 ? hd2' (f' & r' & m' & a' & Heq & ->) Hrest]; subst.
      apply layer_spec_inj in Heq as (<- & <- & <- & <-).
      constructor; [|by apply IH].
      exists f, (shift_ref (shift_ref f)), r, m, a. split; [done|]. split; [done|].
      apply ref_moved_twice.
Qed.

Lemma process_model_twice_witness :
  exists cfg1 cfg2 hd2,
    process_model Scenario.mixed_head = Ok cfg1 /\
    process_model cfg1 = Ok cfg2 /\
    getattr (template cfg2) "backbone" =
      Ok (VList (Scenario.backbone ++
                   [attention_layer (VStr "EIEStem"); attention_layer (VStr "EIEStem")])) /\
    getattr (template cfg2) "head" = Ok (VList hd2) /\
    Forall2 (layer_moved 2) Scenario.mixed_layers hd2.
Proof.
  apply (process_model_twice Scenario.mixed_head (VStr "EIEStem")
           Scenario.backbone Scenario.mixed_layers);
    [reflexivity | reflexivity | reflexivity | reflexivity |].
  unfold Scenario.mixed_layers.
  repeat (constructor; [unfold is_layer_spec; eauto|]). constructor.
Defined.

Lemma rmapM_shift_layer_empty hd :
  Forall is_list hd -> VList [] ∈ hd -> rmapM shift_layer hd = Raise IndexError.
Proof.
  induction 1 as [|l hd [items ->] _ IH]; intros Hin.
  - by apply elem_of_nil in Hin.
  - cbn [rmapM]. destruct items as [|a rest]; [done|].
    apply elem_of_cons in Hin as [Heq|Hin]; [discriminate Heq|].
    destruct (shift_layer_indexable (VList (a :: rest))) as (l' & -> & _);
      [by eexists _, _|].
    cbn [rbind]. by rewrite IH.
Qed.

(** X4: an empty layer in the head is an error of the transformer.  With an
    attention module selected, a list [backbone] and a [head] made of lists
    one of which is empty, [process_model] raises [IndexError] (from
    [layer[0]]) and returns no configuration.  (What the loop had already
    changed in place on the caller's object is not part of this result.) *)
Theorem process_model_empty_layer cfg att bb hd :
  getattr (template cfg) "ATTENTION" = Ok att -> truthy att = true ->
  getattr (template cfg) "backbone" = Ok (VList bb) ->
  getattr (template cfg) "head" = Ok (VList hd) ->
  Forall is_list hd ->
  VList [] ∈ hd ->
  process_model cfg = Raise IndexError.
Proof.
  intros Ha Ht Hb Hh Hall Hin. unfold process_model.
  rewrite Ha. cbn [rbind]. rewrite Ht, Hb. cbn [rbind backbone_append].
  unfold getattr at 1. rewrite lookup_key_setattr_ne by done.
  apply getattr_Ok in Hh. rewrite Hh. cbn [rbind shift_head].
  by rewrite (rmapM_shift_layer_empty hd Hall Hin).
Qed.

Lemma process_model_empty_layer_witness :
  process_model Cases.empty_layer = Raise IndexError.
Proof.
  apply (process_model_empty_layer Cases.empty_layer (VStr "EIEStem") Scenario.backbone
           [Scenario.detect (VInt 12); VList []; Scenario.detect (VInt 15)]);
    [reflexivity | reflexivity | reflexivity | reflexivity | |].
  - repeat (constructor; [by eexists|]). constructor.
  - apply list_elem_of_further, list_elem_of_here.
Defined.

(** ** How [main] can end *)

Lemma only_dirs_added_refl f : only_dirs_added f f.
Proof. split; auto. Qed.

Lemma only_dirs_added_trans f g h :
  only_dirs_added f g -> only_dirs_added g h -> only_dirs_added f h.
Proof.
  intros [Hk1 Ha1] [Hk2 Ha2]. split; [auto|].
  intros q x Hx. destruct (Ha2 q x Hx) as [Hg | ->]; [|by right]. auto.
Qed.

Lemma only_dirs_added_insert (f : gmap (list string) Os.Inode) p :
  f !! p = None -> only_dirs_added f (<[p := Os.Dir]> f).
Proof.
  intros Hp. split; intros q x Hx.
  - rewrite lookup_insert_ne; [done|]. intros <-. congruence.
  - destruct (decide (p = q)) as [<-|Hne].
    + rewrite lookup_insert_eq in Hx. right. congruence.
    + rewrite lookup_insert_ne in Hx by done. by left.
Qed.

Lemma mkdir_chain_only_dirs todo : forall made (f f1 : gmap (list string) Os.Inode),
  Os.mkdir_chain made todo f = Ok f1 -> only_dirs_added f f1.
Proof.
  induction todo as [|seg todo IH]; intros made f f1; cbn [Os.mkdir_chain].
  - intros [= <-]. apply only_dirs_added_refl.
  - destruct (f !! (made ++ [seg])) as [[|c]|] eqn:E; [eauto|discriminate|].
    intros H. apply IH in H.
    eapply only_dirs_added_trans; [|exact H]. by apply only_dirs_added_insert.
Qed.

Lemma write_file_Ok (f f2 : gmap (list string) Os.Inode) p content :
  Os.write_file f p content = Ok f2 ->
  f2 = <[p := Os.File content]> f /\ f !! p <> Some Os.Dir.
Proof.
  unfold Os.write_file. destruct (Os.is_dir f (removelast p)); [|discriminate].
  cbn [andb]. destruct (Os.is_dir f p) eqn:E; [discriminate|].
  intros [= <-]. split; [done|].
  unfold Os.is_dir in E. destruct p; [discriminate|]. intros Hp. by rewrite Hp in E.
Qed.

Section Outcomes.

Variable set_iter : list string -> list string.
Variable repr_other : PyVal -> string.
Variable emit : Yaml.Node -> string.
Variable ROOT : list string.

(** [generate] either raises, having at most made directories, or writes
    its one file and prints the line that says so. *)
Lemma generate_cases cfg now mname w :
  (exists e w',
     generate repr_other emit ROOT cfg now mname w = (Raise e, w') /\
     stdout w' = stdout w /\ only_dirs_added (fs w) (fs w')) \/
  (exists p content fs1,
     generate repr_other emit ROOT cfg now mname w =
       (Ok tt, {| fs := <[p := Os.File content]> fs1;
                  stdout := stdout w ++ [created_line p] |}) /\
     only_dirs_added (fs w) fs1 /\ fs1 !! p <> Some Os.Dir).
Proof.
  unfold generate, mbind, lift, with_fs, print.
  destruct (user_generate_dir repr_other ROOT cfg) as [d|e].
  2:{ left. eexists _, _. split; [done|]. split; [done|apply only_dirs_added_refl]. }
  assert (Hdir : exists r1 w1,
            (if Os.path_exists (fs w) d then (Ok tt, w)
             else match Os.makedirs (fs w) d with
                  | Ok fs' => (Ok tt, {| fs := fs'; stdout := stdout w |})
                  | Raise e => (Raise e, w)
                  end) = (r1, w1) /\
            stdout w1 = stdout w /\ only_dirs_added (fs w) (fs w1)).
  { destruct (Os.path_exists (fs w) d) eqn:E.
    - eexists _, _. split; [done|]. split; [done|apply only_dirs_added_refl].
    - unfold Os.makedirs. rewrite E.
      destruct (Os.mkdir_chain [] d (fs w)) as [fs'|e] eqn:Em.
      + eexists _, _. split; [done|]. split; [done|]. cbn [fs].
        by eapply mkdir_chain_only_dirs.
      + eexists _, _. split; [done|]. split; [done|apply only_dirs_added_refl]. }
  destruct Hdir as (r1 & w1 & Heq & Hout & Hfs). rewrite Heq. clear Heq.
  destruct r1 as [u|e].
  2:{ left. by eexists _, _. }
  destruct (header_comment repr_other cfg _ now mname) as [h|e].
  2:{ left. by eexists _, _. }
  destruct (Os.write_file (fs w1) _ _) as [fs2|e] eqn:Ew.
  - apply write_file_Ok in Ew as [-> Hp]. right.
    eexists _, _, (fs w1). cbn [fs stdout]. rewrite Hout. by split.
  - left. by eexists _, _.
Qed.

(** X5: however [main] ends, it ends in one of five ways.  It raises
    before printing anything (the name could not be composed); or it raises
    after printing the model name, having at most created directories; or
    it returns after the multi-head warning, or after the attention warning,
    with the file system untouched; or it returns after printing the success
    line for a path at which the file now is.  So a success line is never
    printed without the file, and no regular file is written when [main]
    raises or rejects. *)
Theorem main_ends_in_one_of_five_ways cfg now w :
  main_outcome w (main set_iter repr_other emit ROOT cfg now w).
Proof.
  unfold main, mbind, lift, print.
  destruct (model_name set_iter (template cfg)) as [mname|e]; [|constructor].
  cbn [fs stdout].
  destruct (head_mismatch (template cfg)) as [[|]|e].
  - cbn [fs stdout]. rewrite <- app_assoc. apply RejectedHead.
  - unfold after_head_check, mbind, lift, print. cbn [fs stdout].
    destruct (attention_mismatch (template cfg)) as [[|]|e].
    + cbn [fs stdout]. rewrite <- app_assoc. apply RejectedAttention.
    + destruct (generate_cases cfg now mname
                  {| fs := fs w; stdout := stdout w ++ [name_line mname] |})
        as [(e & w' & -> & Hout & Hfs)|(p & content & fs1 & -> & Hfs & Hp)].
      * by eapply Failed.
      * cbn [fs stdout]. rewrite <- app_assoc. by apply Written.
    + eapply Failed; [done|]. apply only_dirs_added_refl.
  - eapply Failed; [done|]. apply only_dirs_added_refl.
Qed.

Lemma main_file_system_cases cfg now w :
  only_dirs_added (fs w) (fs (main set_iter repr_other emit ROOT cfg now w).2) \/
  exists p content fs1,
    fs (main set_iter repr_other emit ROOT cfg now w).2 = <[p := Os.File content]> fs1 /\
    only_dirs_added (fs w) fs1 /\ fs1 !! p <> Some Os.Dir.
Proof.
  unfold main, mbind, lift, print.
  destruct (model_name set_iter (template cfg)) as [mname|e];
    [|left; apply only_dirs_added_refl].
  cbn [fs stdout].
  destruct (head_mismatch (template cfg)) as [[|]|e];
    [left; apply only_dirs_added_refl| |left; apply only_dirs_added_refl].
  unfold after_head_check, mbind, lift, print. cbn [fs stdout].
  destruct (attention_mismatch (template cfg)) as [[|]|e];
    [left; apply only_dirs_added_refl| |left; apply only_dirs_added_refl].
  destruct (generate_cases cfg now mname
              {| fs := fs w; stdout := stdout w ++ [name_line mname] |})
    as [(e & w' & -> & Hout & Hfs)|(p & content & fs1 & -> & Hfs & Hp)].
  - by left.
  - right. by eexists _, _, _.
Qed.

(** X6: [main] is safe for what is already on disk.  For every request
    whose output directory and file path have no [..] component, a
    directory that existed is still a directory afterwards, a regular file
    that existed is still a regular file (possibly with new content), and at
    most one path holds a regular file that is new or has new content. *)
Theorem main_changes_at_most_one_file cfg now w :
  Forall no_parent_step (paths_used set_iter repr_other ROOT cfg) ->
  let w' := (main set_iter repr_other emit ROOT cfg now w).2 in
  (forall q, fs w !! q = Some Os.Dir -> fs w' !! q = Some Os.Dir) /\
  (forall q c, fs w !! q = Some (Os.File c) -> exists c', fs w' !! q = Some (Os.File c')) /\
  (forall q q' c c',
     fs w' !! q = Some (Os.File c) -> fs w !! q <> Some (Os.File c) ->
     fs w' !! q' = Some (Os.File c') -> fs w !! q' <> Some (Os.File c') ->
     q = q').
Proof.
  intros _ w'. unfold w'.
  destruct (main_file_system_cases cfg now w)
    as [[Hkeep Hadd]|(p & content & fs1 & -> & [Hkeep Hadd] & Hp)].
  - split; [auto|]. split; [eauto|].
    intros q q' c c' Hq Hnq _ _. exfalso.
    destruct (Hadd q _ Hq) as [H|H]; [done|discriminate H].
  - assert (Hnew : forall q c, <[p := Os.File content]> fs1 !! q = Some (Os.File c) ->
                     fs w !! q <> Some (Os.File c) -> q = p).
    { intros q c Hq Hnq. destruct (decide (p = q)) as [<-|Hne]; [done|].
      rewrite lookup_insert_ne in Hq by done.
      destruct (Hadd q _ Hq) as [H|H]; [done|discriminate H]. }
    split; [|split].
    + intros q Hq. apply Hkeep in Hq.
      rewrite lookup_insert_ne; [done|]. intros <-. done.
    + intros q c Hq. apply Hkeep in Hq.
      destruct (decide (p = q)) as [<-|Hne].
      * rewrite lookup_insert_eq. eauto.
      * rewrite lookup_insert_ne by done. eauto.
    + intros q q' c c' Hq Hnq Hq' Hnq'.
      rewrite (Hnew q c Hq Hnq). by rewrite (Hnew q' c' Hq' Hnq').
Qed.

End Outcomes.

Lemma scenario_paths_used :
  paths_used Scenario.declared_order Scenario.repr_other Scenario.ROOT Scenario.with_attention
    = [Scenario.generate_dir; Scenario.target].
Proof. vm_compute. reflexivity. Qed.

Lemma main_changes_at_most_one_file_witness :
  (forall q, fs Scenario.world_with_target !! q = Some Os.Dir ->
     fs (main Scenario.declared_order Scenario.repr_other Scenario.emit Scenario.ROOT
           Scenario.with_attention Scenario.now Scenario.world_with_target).2 !! q
       = Some Os.Dir) /\
  (forall q c, fs Scenario.world_with_target !! q = Some (Os.File c) ->
     exists c',
       fs (main Scenario.declared_order Scenario.repr_other Scenario.emit Scenario.ROOT
             Scenario.with_attention Scenario.now Scenario.world_with_target).2 !! q
         = Some (Os.File c')) /\
  (forall q q' c c',
     fs (main Scenario.declared_order Scenario.repr_other Scenario.emit Scenario.ROOT
           Scenario.with_attention Scenario.now Scenario.world_with_target).2 !! q
       = Some (Os.File c) ->
     fs Scenario.world_with_target !! q <> Some (Os.File c) ->
     fs (main Scenario.declared_order Scenario.repr_other Scenario.emit Scenario.ROOT
           Scenario.with_attention Scenario.now Scenario.world_with_target).2 !! q'
       = Some (Os.File c') ->
     fs Scenario.world_with_target !! q' <> Some (Os.File c') ->
     q = q').
Proof.
  apply (main_changes_at_most_one_file Scenario.declared_order Scenario.repr_other
           Scenario.emit Scenario.ROOT Scenario.with_attention Scenario.now
           Scenario.world_with_target).
  rewrite scenario_paths_used.
  repeat (apply Forall_cons; split); [| |apply Forall_nil];
    apply (bool_decide_unpack _); vm_compute; exact I.
Defined.

(** ** Requests that fail *)

Lemma expect_str_not_str v : ~ is_str v -> expect_str v = Raise TypeError.
Proof. intros H. destruct v; try done. exfalso. apply H. by eexists. Qed.

Lemma is_str_or_not v : is_str v \/ ~ is_str v.
Proof. destruct v; try (right; intros [s Hs]; discriminate Hs). left. by eexists. Qed.

Lemma rmapM_expect_str_raises L v :
  v ∈ L -> ~ is_str v -> rmapM expect_str L = Raise TypeError.
Proof.
  intros Hin Hv. induction L as [|x L IH]; [by apply elem_of_nil in Hin|].
  cbn [rmapM]. destruct (is_str_or_not x) as [[s ->]|Hx].
  - cbn [expect_str rbind].
    apply elem_of_cons in Hin as [->|Hin]; [exfalso; apply Hv; by eexists|].
    by rewrite IH.
  - by rewrite (expect_str_not_str x Hx).
Qed.







(** X8: a request that passes both checks but whose [user] is not a string,
    or whose [run_name] is [null] or a number, fails with [TypeError] when the
    output directory is computed: the model name has been printed, and
    nothing has been created or written. *)
Theorem non_string_user_or_run_name (set_iter : list string -> list string)
    (repr_other : PyVal -> string) (emit : Yaml.Node -> string) (ROOT : list string)
    cfg now w mname :
  accepted set_iter cfg mname ->
  ~ is_str (user cfg) \/ is_null_or_number (run_name cfg) ->
  main set_iter repr_other emit ROOT cfg now w =
    (Raise TypeError, {| fs := fs w; stdout := stdout w ++ [name_line mname] |}).
Proof.
  intros (Hn & Hhm & Ham) Hbad.
  rewrite (main_head_passes _ _ _ _ cfg now w mname Hn Hhm).
  rewrite (after_head_check_passes _ _ _ cfg now _ mname Ham).
  unfold generate, mbind, lift.
  assert (user_generate_dir repr_other ROOT cfg = Raise TypeError) as ->; [|done].
  unfold user_generate_dir, path_div.
  destruct (is_str_or_not (user cfg)) as [Hu|Hu].
  - destruct Hbad as [Hbad|Hbad]; [done|]. destruct Hu as [u ->].
    cbn [expect_str rbind].
    destruct Hbad as [-> | [[[n ->] | [b ->]] | [f ->]]]; reflexivity.
  - by rewrite (expect_str_not_str _ Hu).
Qed.

Lemma null_run_name_accepted :
  accepted Scenario.declared_order MainCases.null_run_name Scenario.final_name.
Proof. repeat split; vm_compute; reflexivity. Qed.

Lemma non_string_user_or_run_name_witness :
  main Scenario.declared_order Scenario.repr_other Scenario.emit Scenario.ROOT
       MainCases.null_run_name Scenario.now Scenario.world0 =
    (Raise TypeError, {| fs := ∅; stdout := [name_line Scenario.final_name] |}).
Proof.
  apply (non_string_user_or_run_name Scenario.declared_order Scenario.repr_other
           Scenario.emit Scenario.ROOT MainCases.null_run_name Scenario.now Scenario.world0
           Scenario.final_name).
  - exact null_run_name_accepted.
  - right. by left.
Defined.

(** X9: an option field that is non-empty and not a string (a number, a
    list) makes the name composition fail: for a template with a string name
    and such a field among its non-reserved keys, [main] raises [TypeError]
    (from [str.join]) before it prints or writes anything. *)
Theorem non_string_option_raises (set_iter : list string -> list string)
    (repr_other : PyVal -> string) (emit : Yaml.Node -> string) (ROOT : list string)
    cfg now w n k :
  (forall l, set_iter l ≡ₚ l) ->
  getattr (template cfg) "name" = Ok (VStr n) ->
  k ∈ keys (template cfg) -> k ∉ reserved_keys ->
  truthy (dict_get (template cfg) k) = true ->
  ~ is_str (dict_get (template cfg) k) ->
  main set_iter repr_other emit ROOT cfg now w = (Raise TypeError, w).
Proof.
  intros Hperm Hn Hk Hres Ht Hns. unfold main, mbind, lift.
  assert (model_name set_iter (template cfg) = Raise TypeError) as ->; [|done].
  unfold model_name, str_join. rewrite Hn. cbn [add_str rbind].
  rewrite (rmapM_expect_str_raises _ (dict_get (template cfg) k)); [done| |done].
  apply list_elem_of_filter. split; [done|].
  apply list_elem_of_fmap_2, (elem_of_used_keys set_iter Hperm). done.
Qed.

Lemma non_string_option_raises_witness :
  main Scenario.reversed_order Scenario.repr_other Scenario.emit Scenario.ROOT
       MainCases.numeric_option Scenario.now Scenario.world0 =
    (Raise TypeError, Scenario.world0).
Proof.
  apply (non_string_option_raises Scenario.reversed_order Scenario.repr_other
           Scenario.emit Scenario.ROOT MainCases.numeric_option Scenario.now Scenario.world0
           "yolo11-attn" "WIDTH").
  - exact reversed_order_perm.
  - reflexivity.
  - apply (bool_decide_unpack _). vm_compute. exact I.
  - apply (bool_decide_unpack _). vm_compute. exact I.
  - reflexivity.
  - intros [s Hs]. vm_compute in Hs. discriminate Hs.
Defined.

(** ** The line formatter *)

(** The text of the small template, run through the formatter. *)
Example format_lines_small_template :
  Yaml.format_lines (Yaml.mkFlags false false false) Dumps.emitted = Dumps.formatted.
Proof. vm_compute. reflexivity. Qed.

Lemma split_char_not_nil sep s : Yaml.split_char sep s <> [].
Proof.
  destruct s as [|c s]; cbn [Yaml.split_char]; [done|].
  destruct (Ascii.eqb c sep); [done|]. by destruct (Yaml.split_char sep s).
Qed.

Lemma concat_cons_String sep c w ws :
  String.concat sep (String c w :: ws) = String c (String.concat sep (w :: ws)).
Proof. destruct ws; reflexivity. Qed.

(** ['\n'.join(s.split('\n'))] is [s]. *)
Lemma join_split_newline s :
  String.concat Yaml.newline (Yaml.split_char "010" s) = s.
Proof.
  induction s as [|c s IH]; [done|]. cbn [Yaml.split_char].
  destruct (Ascii.eqb_spec c "010"%char) as [->|Hne].
  - pose proof (split_char_not_nil "010" s) as Hnn.
    destruct (Yaml.split_char "010" s) as [|w ws] eqn:E; [done|].
    change (String.concat Yaml.newline ("" :: w :: ws))
      with (String "010" (String.concat Yaml.newline (w :: ws))).
    by rewrite IH.
  - pose proof (split_char_not_nil "010" s) as Hnn.
    destruct (Yaml.split_char "010" s) as [|w ws] eqn:E; [done|].
    rewrite concat_cons_String. by rewrite IH.
Qed.

Lemma is_header_false line :
  is_header line = false ->
  Yaml.startswith (Yaml.strip line) "scales:" = false /\
  Yaml.startswith (Yaml.strip line) "backbone:" = false /\
  Yaml.startswith (Yaml.strip line) "head:" = false.
Proof.
  unfold is_header. intros H. apply orb_false_iff in H as [H H3].
  apply orb_false_iff in H as [H1 H2]. done.
Qed.

Lemma format_lines_outside lines :
  Forall (fun l => is_header l = false) lines ->
  Yaml.format_lines (Yaml.mkFlags false false false) lines = lines.
Proof.
  induction 1 as [|line lines Hl _ IH]; [done|].
  apply is_header_false in Hl as (H1 & H2 & H3).
  cbn [Yaml.format_lines]. unfold Yaml.format_line. rewrite H1, H2, H3.
  destruct (negb (String.eqb (Yaml.strip line) "") && negb (Yaml.startswith line " ")
            && negb (Yaml.startswith (Yaml.strip line) "- ["));
    cbn [Yaml.in_scales Yaml.in_backbone Yaml.in_head andb orb app]; by rewrite IH.
Qed.

(** X10: a document in which no line opens a [scales:], [backbone:] or
    [head:] section goes through [format_yaml_content] byte for byte: the
    result is the text PyYAML emitted. *)
Theorem format_yaml_content_outside_sections (emit : Yaml.Node -> string) data :
  Forall (fun l => is_header l = false) (Yaml.split_char "010" (Yaml.yaml_dump emit data)) ->
  Yaml.format_yaml_content emit data = Yaml.yaml_dump emit data.
Proof.
  intros H. unfold Yaml.format_yaml_content.
  rewrite (format_lines_outside _ H). apply join_split_newline.
Qed.

Lemma format_yaml_content_outside_sections_witness :
  Yaml.format_yaml_content Dumps.emit_plain (VDict Scenario.no_options) =
    Yaml.yaml_dump Dumps.emit_plain (VDict Scenario.no_options).
Proof.
  apply (format_yaml_content_outside_sections Dumps.emit_plain (VDict Scenario.no_options)).
  vm_compute. repeat constructor.
Defined.

Lemma lstrip_idem s : Yaml.lstrip (Yaml.lstrip s) = Yaml.lstrip s.
Proof.
  induction s as [|c s IH]; [done|]. cbn [Yaml.lstrip].
  destruct (Yaml.is_space c) eqn:E; [done|]. cbn [Yaml.lstrip]. by rewrite E.
Qed.

Lemma rstrip_idem s : Yaml.rstrip (Yaml.rstrip s) = Yaml.rstrip s.
Proof.
  induction s as [|c s IH]; [done|]. cbn [Yaml.rstrip].
  destruct (Yaml.rstrip s) as [|c' r] eqn:E.
  - destruct (Yaml.is_space c) eqn:Ec; [done|]. cbn [Yaml.rstrip]. by rewrite Ec.
  - change (Yaml.rstrip (String c (String c' r)))
      with (match Yaml.rstrip (String c' r) with
            | EmptyString => if Yaml.is_space c then EmptyString else String c EmptyString
            | String a b => String c (String a b)
            end).
    by rewrite IH.
Qed.

(** Stripping on the right leaves a string without leading white space
    without leading white space. *)
Lemma lstrip_rstrip s : Yaml.lstrip s = s -> Yaml.lstrip (Yaml.rstrip s) = Yaml.rstrip s.
Proof.
  destruct s as [|c s]; [done|]. cbn [Yaml.lstrip].
  destruct (Yaml.is_space c) eqn:E.
  - intros H. exfalso.
    assert (Hlen : forall t, String.length (Yaml.lstrip t) <= String.length t).
    { induction t as [|a t IHt]; [done|]. cbn [Yaml.lstrip].
      destruct (Yaml.is_space a); simpl; lia. }
    specialize (Hlen s). rewrite H in Hlen. simpl in Hlen. lia.
  - intros _. cbn [Yaml.rstrip].
    destruct (Yaml.rstrip s); [rewrite E|]; cbn [Yaml.lstrip]; by rewrite E.
Qed.

Lemma strip_idem s : Yaml.strip (Yaml.strip s) = Yaml.strip s.
Proof.
  unfold Yaml.strip. rewrite (lstrip_rstrip (Yaml.lstrip s) (lstrip_idem s)).
  apply rstrip_idem.
Qed.

Lemma strip_indented line : Yaml.strip (indented line) = Yaml.strip line.
Proof.
  unfold indented.
  change ("  " +:+ Yaml.strip line) with (String " " (String " " (Yaml.strip line))).
  unfold Yaml.strip at 1. cbn [Yaml.lstrip].
  change (Yaml.is_space " ") with true. cbv iota.
  fold (Yaml.strip (Yaml.strip line)).
  change (Yaml.rstrip (Yaml.lstrip (Yaml.strip line))) with (Yaml.strip (Yaml.strip line)).
  apply strip_idem.
Qed.

(** One turn of the loop: the line comes out as it is or indented anew,
    unless it is a section header. *)
Lemma format_line_restyled fl line :
  Yaml.strip <$> (Yaml.format_line fl line).1 = restyled line.
Proof.
  unfold Yaml.format_line, restyled.
  destruct (Yaml.startswith (Yaml.strip line) "scales:"); [reflexivity|].
  destruct (Yaml.startswith (Yaml.strip line) "backbone:"); [reflexivity|].
  destruct (Yaml.startswith (Yaml.strip line) "head:"); [reflexivity|].
  cbn [fst]. fold (indented line).
  destruct (negb (String.eqb (Yaml.strip line) "") && negb (Yaml.startswith line " ")
            && negb (Yaml.startswith (Yaml.strip line) "- ["));
    match goal with
    | |- context [if ?b && _ && _ && _ then indented line else line] =>
        destruct (b && negb (String.eqb (Yaml.strip line) "") && str_contains ":" line
                  && negb (Yaml.startswith line "  "))
    end;
    rewrite ?strip_indented; fold (indented line);
    match goal with
    | |- context [if ?b then _ else _] => destruct b
    end;
    cbn [fmap list_fmap]; by rewrite ?strip_indented.
Qed.

(** X11: [format_lines] only re-indents.  Whatever the section flags it
    starts with, the output read without leading and trailing white space is
    the input read the same way, except that each [scales:], [backbone:] and
    [head:] line (with anything that followed the key on that line) is
    replaced by the fixed lines of its section: the key, a comment for
    [scales:] and [backbone:], and an empty line before [backbone:] and
    [head:]. *)
Theorem format_lines_only_reindents fl lines :
  Yaml.strip <$> Yaml.format_lines fl lines = lines ≫= restyled.
Proof.
  revert fl. induction lines as [|line lines IH]; intros fl; [done|].
  cbn [Yaml.format_lines].
  pose proof (format_line_restyled fl line) as Hl.
  destruct (Yaml.format_line fl line) as [out fl'].
  rewrite fmap_app, IH. cbn [fst] in Hl. by rewrite Hl.
Qed.

Lemma prefix_first_char a p b s :
  String.prefix (String a p) (String b s) = true -> a = b.
Proof. cbn [String.prefix]. by destruct (ascii_dec a b). Qed.

Lemma entry_not_header line :
  is_entry line ->
  Yaml.startswith (Yaml.strip line) "scales:" = false /\
  Yaml.startswith (Yaml.strip line) "backbone:" = false /\
  Yaml.startswith (Yaml.strip line) "head:" = false.
Proof.
  unfold is_entry, Yaml.startswith. destruct (Yaml.strip line) as [|c s]; [done|].
  intros H. apply prefix_first_char in H as <-. done.
Qed.

(** X12: inside a [backbone:] or [head:] section, a run of entry lines
    ([- [...]], however the emitter indented them) comes out with each line
    stripped and indented by exactly two spaces, and leaves the section open
    for the lines after it. *)
Theorem section_entries_are_indented fl items rest :
  Yaml.in_backbone fl || Yaml.in_head fl = true ->
  Forall is_entry items ->
  Yaml.format_lines fl (items ++ rest) = (indented <$> items) ++ Yaml.format_lines fl rest.
Proof.
  intros Hfl. induction 1 as [|line items Hl _ IH]; [done|].
  destruct (entry_not_header line Hl) as (H1 & H2 & H3).
  cbn [app Yaml.format_lines]. unfold Yaml.format_line. rewrite H1, H2, H3.
  unfold is_entry in Hl. rewrite Hl.
  rewrite andb_false_r. fold (indented line).
  destruct (Yaml.in_scales fl && negb (String.eqb (Yaml.strip line) "")
            && str_contains ":" line && negb (Yaml.startswith line "  "));
    rewrite ?strip_indented, Hl, Hfl; cbn [andb app]; fold (indented line);
    rewrite ?IH; by rewrite ?fmap_cons.
Qed.

Lemma section_entries_are_indented_witness :
  Yaml.format_lines (Yaml.mkFlags true false false) (Dumps.entries ++ ["nc: 80"]) =
    (indented <$> Dumps.entries) ++
    Yaml.format_lines (Yaml.mkFlags true false false) ["nc: 80"].
Proof.
  apply (section_entries_are_indented (Yaml.mkFlags true false false)
           Dumps.entries ["nc: 80"]).
  - reflexivity.
  - repeat constructor.
Defined.

(** The entries of the witness, formatted. *)
Example entries_formatted :
  Yaml.format_lines (Yaml.mkFlags true false false) (Dumps.entries ++ ["nc: 80"]) =
    [ "  - [-1, 1, Conv, [64, 3, 2]]"; "  - [-1, 1, Conv, [128, 3, 2]]";
      "  - [[-1, 6], 1, Concat, [1]]"; "nc: 80" ].
Proof. vm_compute. reflexivity. Qed.

(** ** Where the file goes, and what its header says *)

(** X13: the output is not confined to the project root.  When [user] is
    a string that starts with [/], the directory [main] works in is the same
    whatever the root is: the path starts again at that user string. *)
Theorem absolute_user_leaves_root (repr_other : PyVal -> string) (ROOT ROOT' : list string)
    cfg u :
  user cfg = VStr u ->
  String.prefix "/" u = true ->
  user_generate_dir repr_other ROOT cfg = user_generate_dir repr_other ROOT' cfg /\
  (forall r, run_name cfg = VStr r ->
     plain_component (run_segment (py_format repr_other (time cfg)) r) ->
     user_generate_dir repr_other ROOT cfg =
       Ok (Os.parts u ++ ["generate"; run_segment (py_format repr_other (time cfg)) r])).
Proof.
  intros Hu Habs.
  assert (Hdiv : forall p, Os.div p u = Os.parts u).
  { intros p. unfold Os.div. by rewrite Habs. }
  split.
  - unfold user_generate_dir, path_div. rewrite Hu. cbn [expect_str rbind].
    by rewrite !Hdiv.
  - intros r Hr Hps. destruct plain_literals as (_ & _ & Hg).
    unfold user_generate_dir, path_div. rewrite Hu, Hr. cbn [expect_str rbind].
    rewrite Hdiv, (div_plain _ _ Hg). unfold run_segment in *. cbn [is_the_str].
    destruct (String.eqb_spec default_run_name r) as [<-|Hne].
    + rewrite decide_True in Hps |- * by done. cbn [rbind].
      rewrite (div_plain _ _ Hps). by rewrite <- app_assoc.
    + rewrite decide_False in Hps |- * by congruence. cbn [str_add rbind].
      rewrite (div_plain _ _ Hps). by rewrite <- app_assoc.
Qed.

Lemma absolute_user_leaves_root_witness :
  user_generate_dir Scenario.repr_other Scenario.ROOT MainCases.absolute_user =
    user_generate_dir Scenario.repr_other ["srv"; "other"] MainCases.absolute_user /\
  (forall r, run_name MainCases.absolute_user = VStr r ->
     plain_component
       (run_segment (py_format Scenario.repr_other (time MainCases.absolute_user)) r) ->
     user_generate_dir Scenario.repr_other Scenario.ROOT MainCases.absolute_user =
       Ok (Os.parts "/tmp/elsewhere" ++
           ["generate";
            run_segment (py_format Scenario.repr_other (time MainCases.absolute_user)) r])).
Proof.
  apply (absolute_user_leaves_root Scenario.repr_other Scenario.ROOT ["srv"; "other"]
           MainCases.absolute_user "/tmp/elsewhere").
  - reflexivity.
  - reflexivity.
Defined.

(** The run of [main] for the absolute user: the file lands under
    [/tmp/elsewhere]. *)
Example absolute_user_run :
  stdout (main Scenario.declared_order Scenario.repr_other Scenario.emit Scenario.ROOT
            MainCases.absolute_user Scenario.now Scenario.world0).2 =
    [ name_line Scenario.final_name;
      "   ✅ 模型创建成功: /tmp/elsewhere/generate/t1754318068366/yolo11-attn-ADown-Detect-EIEStem.yaml" ].
Proof. vm_compute. reflexivity. Qed.

(** X14: the header of the generated file shows the composed name twice.
    Line 151 puts the composed name into the template before the header is
    built, so the header's template line and its model-name line carry the
    same text, after the fixed first line, the time and the user. *)
Theorem header_shows_composed_name_twice (repr_other : PyVal -> string)
    cfg t now mname h :
  is_Some (lookup_key "name" t) ->
  header_comment repr_other cfg (setattr "name" (VStr mname) t) now mname = Ok h ->
  exists rest,
    h = String.concat Yaml.newline
          ([ "# 自动生成的模型配置文件";
             "# 生成时间: " +:+ now;
             "# 用户: " +:+ py_format repr_other (user cfg);
             "# 模板: " +:+ mname;
             "# 模型名称: " +:+ mname ] ++ rest) /\
    length rest = 7.
Proof.
  intros Hn. unfold header_comment, getattr.
  rewrite lookup_key_setattr_eq by done. cbn [rbind].
  intros H. apply rbind_Ok in H as (ds & _ & H). apply rbind_Ok in H as (cv & _ & H).
  apply rbind_Ok in H as (fu & _ & H). apply rbind_Ok in H as (hd & _ & H).
  injection H as <-.
  exists [ "# "; "# 配置参数:";
           "#   - 下采样模块: " +:+ py_format repr_other ds;
           "#   - 卷积模块: " +:+ py_format repr_other cv +:+ "  ";
           "#   - 融合模块: " +:+ py_format repr_other fu;
           "#   - 检测头: " +:+ py_format repr_other hd;
           "" ].
  split; [|done]. cbn [app py_format]. reflexivity.
Qed.

Lemma header_shows_composed_name_twice_witness :
  exists rest,
    scenario_header =
      String.concat Yaml.newline
        ([ "# 自动生成的模型配置文件";
           "# 生成时间: " +:+ Scenario.now;
           "# 用户: " +:+ py_format Scenario.repr_other (user Scenario.with_attention);
           "# 模板: " +:+ Scenario.final_name;
           "# 模型名称: " +:+ Scenario.final_name ] ++ rest) /\
    length rest = 7.
Proof.
  apply (header_shows_composed_name_twice Scenario.repr_other Scenario.with_attention
           (template Scenario.with_attention) Scenario.now Scenario.final_name
           scenario_header).
  - eexists. reflexivity.
  - vm_compute. reflexivity.
Defined.

(** ** Sequences of layers in the representation *)

Lemma represent_data_list d l :
  Yaml.represent_data d (VList l) =
    Yaml.represent_sequence d (map (Yaml.represent_data d) l) (Yaml.list_flow_style l).
Proof. reflexivity. Qed.

Lemma layer_spec_not_number f r m a :
  isinstance_int (layer_spec f r m a) || isinstance_float (layer_spec f r m a) = false.
Proof. reflexivity. Qed.

Lemma list_flow_style_layers layers :
  Forall is_layer_spec layers -> Yaml.list_flow_style layers = None.
Proof.
  intros Hall.
  destruct layers as [|l0 [|l1 [|l2 [|l3 [|l4 rest]]]]]; try reflexivity.
  - apply Forall_cons in Hall as [(f & r & m & a & ->) _]. reflexivity.
  - apply Forall_cons in Hall as [_ Hall].
    apply Forall_cons in Hall as [(f & r & m & a & ->) _].
    cbn [Yaml.list_flow_style]. change (isinstance_int (layer_spec f r m a)) with false.
    by rewrite andb_false_r.
Qed.

Lemma list_flow_style_layer f r m a :
  Yaml.list_flow_style [from_val f; VInt r; VStr m; VList a] = Some true.
Proof. destruct f; reflexivity. Qed.

(** X15: a backbone or head is never mistaken for a layer.  For every
    list of LayerSpec tuples -- also one of exactly 3 or 4 layers, the sizes
    [represent_list] looks at -- the node of the list has the block style and
    as many items as there are layers, and the node of every layer has the
    inline style. *)
Theorem layer_sequences_are_block layers :
  Forall is_layer_spec layers ->
  exists items,
    Yaml.represent_list (Some false) layers = Yaml.SequenceNode items false /\
    length items = length layers /\
    Forall (fun n => Yaml.node_flow_style n = Some true) items.
Proof.
  intros Hall. exists (map (Yaml.represent_data (Some false)) layers).
  split; [|split].
  - unfold Yaml.represent_list. rewrite represent_data_list.
    by rewrite (list_flow_style_layers layers Hall).
  - apply length_map.
  - induction Hall as [|l layers (f & r & m & a & ->) _ IH]; [constructor|].
    cbn [map]. constructor; [|done].
    unfold layer_spec. rewrite represent_data_list, list_flow_style_layer. reflexivity.
Qed.

Lemma layer_sequences_are_block_witness :
  exists items,
    Yaml.represent_list (Some false) Layers.four = Yaml.SequenceNode items false /\
    length items = length Layers.four /\
    Forall (fun n => Yaml.node_flow_style n = Some true) items.
Proof.
  apply (layer_sequences_are_block Layers.four).
  unfold Layers.four.
  repeat (constructor; [unfold is_layer_spec; eauto|]). constructor.
Defined.

(** The same for a backbone of exactly three layers, evaluated. *)
Example three_layers_are_block :
  Yaml.node_flow_style (Yaml.represent_list (Some false) Layers.three) = Some false.
Proof. reflexivity. Qed.

(** ** The threshold and the length of the backbone *)

(** X16: the threshold of the rewrite is the constant 10, not the length of
    the backbone.  With more than 10 backbone layers, the layer at position
    10 stays at position 10 while a reference to it is rewritten to 11; with
    fewer than 10, the first head layer moves one position up while a
    reference to it is left as it was. *)
Theorem references_need_ten_layers cfg att bb hd :
  getattr (template cfg) "ATTENTION" = Ok att -> truthy att = true ->
  getattr (template cfg) "backbone" = Ok (VList bb) ->
  getattr (template cfg) "head" = Ok (VList hd) ->
  Forall is_layer_spec hd ->
  exists bb' hd',
    backbone_after cfg = Ok (VList bb') /\
    head_after cfg = Ok (VList hd') /\
    (10 < length bb ->
       (bb' ++ hd') !! 10 = (bb ++ hd) !! 10 /\ shifted_position 10 = 11) /\
    (length bb < 10 ->
       forall l, (bb ++ hd) !! length bb = Some l ->
         shifted_position (length bb) = length bb /\
         (bb' ++ hd') !! length bb = Some (attention_layer att) /\
         exists l', (bb' ++ hd') !! S (length bb) = Some l' /\ layer_shifted l l').
Proof.
  intros Ha Ht Hb Hh Hall.
  destruct (process_model_attention cfg att bb hd Ha Ht Hb Hh Hall) as (hd' & Hpm & H2).
  pose proof Hb as Hb'. pose proof Hh as Hh'. apply getattr_Ok in Hb', Hh'.
  exists (bb ++ [attention_layer att]), hd'. split; [|split; [|split]].
  - unfold backbone_after. rewrite Hpm. cbn [rbind template with_template]. unfold getattr.
    rewrite lookup_key_setattr_ne by done.
    rewrite lookup_key_setattr_eq; [done|eauto].
  - unfold head_after. rewrite Hpm. cbn [rbind template with_template]. unfold getattr.
    rewrite lookup_key_setattr_eq; [done|].
    rewrite lookup_key_setattr_ne by done. eauto.
  - intros Hlen. split; [|reflexivity].
    rewrite <- app_assoc. by rewrite !lookup_app_l by lia.
  - intros Hlen l Hl. split; [|split].
    + unfold shifted_position, shift_index.
      destruct (Z.leb_spec 10 (Z.of_nat (length bb))); [lia|]. apply Nat2Z.id.
    + rewrite <- app_assoc. rewrite lookup_app_r by lia. by rewrite Nat.sub_diag.
    + rewrite lookup_app_r in Hl by lia. rewrite Nat.sub_diag in Hl.
      destruct (Forall2_lookup_l _ _ _ _ _ H2 Hl) as (l' & Hl' & Hs).
      exists l'. split; [|done].
      rewrite lookup_app_r by (rewrite length_app; simpl; lia).
      rewrite length_app. simpl. rewrite <- Hl'. f_equal. lia.
Qed.

Lemma references_need_ten_layers_witness :
  exists bb' hd',
    backbone_after Lengths.eleven = Ok (VList bb') /\
    head_after Lengths.eleven = Ok (VList hd') /\
    (10 < length Lengths.backbone11 ->
       (bb' ++ hd') !! 10 = (Lengths.backbone11 ++ Lengths.head11) !! 10 /\
       shifted_position 10 = 11) /\
    (length Lengths.backbone11 < 10 ->
       forall l, (Lengths.backbone11 ++ Lengths.head11) !! length Lengths.backbone11 = Some l ->
         shifted_position (length Lengths.backbone11) = length Lengths.backbone11 /\
         (bb' ++ hd') !! length Lengths.backbone11 =
           Some (attention_layer (VStr "EIEStem")) /\
         exists l', (bb' ++ hd') !! S (length Lengths.backbone11) = Some l' /\
                    layer_shifted l l').
Proof.
  apply (references_need_ten_layers Lengths.eleven (VStr "EIEStem")
           Lengths.backbone11 Lengths.head11);
    [reflexivity | reflexivity | reflexivity | reflexivity |].
  unfold Lengths.head11.
  repeat (constructor; [unfold is_layer_spec; eauto|]). constructor.
Defined.

(** The eleven-layer backbone, evaluated: the head that tapped layer 10
    ([C2PSA]) now names position 11, where the attention layer is. *)
Example eleven_layers_misdirected :
  head_after Lengths.eleven =
    Ok (VList [ layer_spec (Multi [-1; 11]%Z) 1 "Concat" [VInt 1];
                layer_spec (Single 12) 1 "Detect" [VInt 256] ]) /\
  (r <- backbone_after Lengths.eleven ;;
   match r with VList bb' => Ok (bb' !! 11) | _ => Raise TypeError end) =
    Ok (Some (attention_layer (VStr "EIEStem"))).
Proof. split; vm_compute; reflexivity. Qed.
